(** * school-api: query shaping, resource controllers and login

    A shallow embedding of the controllers of the school REST backend
    ([student.controller.js], [teacher.controller.js], [auth.controller.js])
    together with the properties of their list, lookup and login handlers.

    Layout: the JavaScript runtime pieces the controllers lean on (strings
    as UTF-16 code units, [parseInt], [split], [trim], exceptions), the
    persistence layer as in-memory tables, the HTTP response envelope, one
    module per controller, and then the theorems. *)

From stdpp Require Import base list strings gmap sorting.
From Stdlib Require Import Ascii ZArith QArith Qround Lia.

Local Open Scope Z_scope.

(** ** JavaScript runtime *)

Module JS.

(** A JavaScript string is a sequence of UTF-16 code units.  Query
    parameters are kept in that form because [trim] and [parseInt] look at
    individual code units; [js] turns a literal of the source, all of them
    ASCII, into it.  Strings that are only passed along or compared as a
    whole (messages, addresses, hashes, attribute names) stay [string]. *)
Abbreviation jsstring := (list N).

Definition js (s : string) : jsstring :=
  N_of_ascii <$> String.list_ascii_of_string s.

(** ECMAScript [WhiteSpace] and [LineTerminator] code units: what
    [String.prototype.trim] strips and what [parseInt] skips in front. *)
Definition isWhiteSpace (c : N) : bool :=
  bool_decide (c ∈ [9; 10; 11; 12; 13; 32; 160; 5760; 8232; 8233; 8239;
                    8287; 12288; 65279]%N)
  || ((8192 <=? c)%N && (c <=? 8202)%N).

Fixpoint trimStart (s : jsstring) : jsstring :=
  match s with
  | c :: r => if isWhiteSpace c then trimStart r else s
  | [] => []
  end.

Definition trimEnd (s : jsstring) : jsstring :=
  reverse (trimStart (reverse s)).

(** [s.trim()] *)
Definition trim (s : jsstring) : jsstring := trimEnd (trimStart s).

(** [s.split(',')]: the pieces between commas, in order; a string without
    a comma (the empty one too) gives exactly one piece. *)
Definition comma : N := 44%N.

Fixpoint split (s : jsstring) : list jsstring :=
  match s with
  | [] => [[]]
  | c :: r =>
      if (c =? comma)%N then [] :: split r
      else match split r with
           | t :: ts => (c :: t) :: ts
           | [] => [[c]]
           end
  end.

(** [pieces.join(',')] *)
Fixpoint join (pieces : list jsstring) : jsstring :=
  match pieces with
  | [] => []
  | t :: r =>
      match r with
      | [] => t
      | _ :: _ => t ++ comma :: join r
      end
  end.

(** Numbers.  The controllers only ever hold [NaN] or an integer; the
    integer is kept as the mathematical value it denotes, which is what a
    double holds exactly up to 2^53 in magnitude.  Past that a double
    rounds, and past 2^1024 it is [Infinity]: no such value is pictured
    here, and the statements that read a parsed value or the result of an
    arithmetic operation are made for safe integers. *)
Inductive Number :=
| NaN
| Num (z : Z).

(** [Number.isSafeInteger(n)]: up to [Number.MAX_SAFE_INTEGER] in
    magnitude. *)
Definition safeInteger (n : Z) : Prop := - (2 ^ 53 - 1) ≤ n ≤ 2 ^ 53 - 1.

(** Value of a code unit as a digit: [0-9], then letters of either case
    from ten onwards. *)
Definition digitValue (c : N) : option Z :=
  if ((48 <=? c) && (c <=? 57))%N then Some (Z.of_N c - 48)
  else if ((97 <=? c) && (c <=? 122))%N then Some (Z.of_N c - 97 + 10)
  else if ((65 <=? c) && (c <=? 90))%N then Some (Z.of_N c - 65 + 10)
  else None.

Definition radixDigit (R : Z) (c : N) : option Z :=
  match digitValue c with
  | Some d => if d <? R then Some d else None
  | None => None
  end.

(** The longest prefix of radix-[R] digits, read as an integer; [acc] is
    [None] until a first digit has been seen. *)
Fixpoint parseDigits (R : Z) (s : jsstring) (acc : option Z) : option Z :=
  match s with
  | c :: r =>
      match radixDigit R c with
      | Some d => parseDigits R r (Some (R * default 0 acc + d))
      | None => acc
      end
  | [] => acc
  end.

(** [parseInt(string)] with no radix argument (ECMA-262, 19.2.5): skip
    leading white space, take an optional sign, switch to radix 16 on a
    [0x]/[0X] prefix, read the longest digit prefix; no digit gives
    [NaN]. *)
Definition parseIntString (inputString : jsstring) : Number :=
  let trimmed := trimStart inputString in
  let '(sign, unsigned) :=
    match trimmed with
    | 45%N :: r => (-1, r)
    | 43%N :: r => (1, r)
    | _ => (1, trimmed)
    end in
  let '(R, digits) :=
    match unsigned with
    | 48%N :: x :: r =>
        if bool_decide (x = 120%N ∨ x = 88%N) then (16, r)
        else (10, unsigned)
    | _ => (10, unsigned)
    end in
  match parseDigits R digits None with
  | Some mathInt => Num (sign * mathInt)
  | None => NaN
  end.

(** What [req.query.<name>] can hold once the query string is parsed:
    nothing, a string, an array (a repeated parameter) or a nested object
    (bracket syntax), whose fields the controllers never read. *)
#[warnings="-register-all"]
Inductive QueryValue :=
| QUndefined
| QString (s : jsstring)
| QArray (items : list QueryValue)
| QObject.

(** [ToString]: an array joins its elements with commas, an undefined
    element counting as the empty string. *)
Fixpoint ToString (v : QueryValue) : jsstring :=
  match v with
  | QUndefined => js "undefined"
  | QString s => s
  | QArray items =>
      (fix joined (l : list QueryValue) : jsstring :=
         match l with
         | [] => []
         | x :: r =>
             let element :=
               match x with QUndefined => [] | _ => ToString x end in
             match r with
             | [] => element
             | _ :: _ => element ++ comma :: joined r
             end
         end) items
  | QObject => js "[object Object]"
  end.

Definition parseInt (v : QueryValue) : Number :=
  parseIntString (ToString v).

(** [ToBoolean]: only [undefined] and the empty string are falsy here. *)
Definition truthy (v : QueryValue) : bool :=
  match v with
  | QUndefined => false
  | QString [] => false
  | QString (_ :: _) => true
  | QArray _ => true
  | QObject => true
  end.

(** [v === 'literal'] *)
Definition strictEquals (v : QueryValue) (literal : jsstring) : bool :=
  match v with
  | QString s => bool_decide (s = literal)
  | _ => false
  end.

(** [n || d] for a number [n] and a non-zero default [d]: [NaN] and zero
    are falsy. *)
Definition orDefault (n : Number) (d : Z) : Z :=
  match n with
  | Num z => if z =? 0 then d else z
  | NaN => d
  end.

(** [Math.ceil(a / b)] on integers [a] and [b]: the quotient is taken
    in the rationals and rounded up. *)
Module Math.
Definition ceil (q : Q) : Z := Qceiling q.
End Math.

Definition divide (a b : Z) : Q := (inject_Z a / inject_Z b)%Q.

(** [s || d] for an optional string: [undefined] and the empty string
    are falsy. *)
Definition orDefaultString (s : option string) (d : string) : string :=
  match s with
  | Some EmptyString => d
  | Some v => v
  | None => d
  end.

(** Exceptions: a computation returns or throws an error carrying a
    message; [catch] is the handler of a [try] block. *)
Inductive Result (A : Type) :=
| Ok (a : A)
| Throw (message : string).
Arguments Ok {A} a.
Arguments Throw {A} message.

#[export] Instance Result_ret : MRet Result := @Ok.
#[export] Instance Result_bind : MBind Result :=
  λ A B f r, match r with Ok a => f a | Throw m => Throw m end.

Definition catch {A} (r : Result A) (handler : string → A) : A :=
  match r with
  | Ok a => a
  | Throw m => handler m
  end.

(** [populate.split(',').map(r => r.trim())]: only a string has a
    [split] method. *)
Definition splitTrim (v : QueryValue) : Result (list jsstring) :=
  match v with
  | QString s => Ok (trim <$> split s)
  | QUndefined =>
      Throw "Cannot read properties of undefined (reading 'split')"
  | QArray _ | QObject => Throw "populate.split is not a function"
  end.

(** [relations.includes('literal')] *)
Definition includes (relations : list jsstring) (literal : jsstring) : bool :=
  bool_decide (literal ∈ relations).

(** A plain object used as a dictionary: its keys in insertion order. *)
Module Object.
Definition t (V : Type) := list (string * V).

Fixpoint get {V} (k : string) (o : t V) : option V :=
  match o with
  | [] => None
  | (k', v) :: r => if String.eqb k k' then Some v else get k r
  end.

(** [o.k = v] keeps the place of a key that is already there. *)
Fixpoint set {V} (k : string) (v : V) (o : t V) : t V :=
  match o with
  | [] => [(k, v)]
  | (k', v') :: r =>
      if String.eqb k k' then (k, v) :: r else (k', v') :: set k v r
  end.

(** [Object.values(o)] *)
Definition values {V} (o : t V) : list V := snd <$> o.
End Object.

(** [for (const x of items) { ... }] over a state the body may replace
    or abandon by throwing. *)
Fixpoint forOf {S A} (body : S → A → Result S) (items : list A) (s : S)
    : Result S :=
  match items with
  | [] => Ok s
  | x :: r => s' ← body s x; forOf body r s'
  end.

End JS.

Import JS.

(** ** Persistence layer

    The models of [models/index.js] and the ORM calls the controllers make
    on them, over in-memory tables.  A call on a table always completes; what
    it returns is what the ORM documents for it. *)

Module db.
(** Modelled from the spec: [models/index.js], which declares the models,
    is not among the sources.  The data model names Teacher, Student and
    Course; the controllers reach them as [db.Teacher], [db.Student] and
    [db.Course]. *)
Inductive Model := Teacher | Student | Course.
End db.

Module Sequelize.

(** An element of an [include] option: [{ model, include }], the inner
    list missing when the source writes none. *)
#[warnings="-register-all"]
Inductive IncludeOptions :=
| mkInclude (model : db.Model) (include : option (list IncludeOptions)).

Definition model (i : IncludeOptions) : db.Model :=
  match i with mkInclude m _ => m end.

Definition include (i : IncludeOptions) : option (list IncludeOptions) :=
  match i with mkInclude _ l => l end.

Inductive Direction := ASC | DESC.

(** The options object handed to [findAll]. *)
Record FindOptions := {
  opt_limit : Z;
  opt_offset : Z;
  opt_order : list (string * Direction);
  opt_include : list IncludeOptions;
}.

(** The fields of a row or of a request body, by name. *)
Abbreviation Attributes := (gmap string string).

(** Modelled from the spec: the model declarations are not among the
    sources.  Every entity has a unique identifier, here the key of its
    table, a creation timestamp, and further attributes: one value for each
    other column of its model.  The second timestamp the ORM keeps,
    [updatedAt], is left out of the picture. *)
Record Row := {
  createdAt : Z;
  attributes : Attributes;
}.

Abbreviation Instance_ := (Z * Row)%type.
Abbreviation Table := (gmap Z Row).

(** [Model.count()] *)
Definition count (table : Table) : Z := Z.of_nat (size table).

(** [Model.findByPk(id, { include })]: the instance, or [null].  As in
    [findAll] below, the associations named by [include] come along with
    the instance and do not decide whether there is one. *)
Definition findByPk (table : Table) (id : Z) (include : list IncludeOptions)
    : option Instance_ :=
  (λ row, (id, row)) <$> table !! id.

(** The columns the ORM keeps to itself: no [update] writes them from
    the values it is given. *)
Definition managed : list string := ["id"; "createdAt"; "updatedAt"].

(** A field of the values that [update] writes: a column of the row that
    the ORM does not keep to itself. *)
Definition settable (row : Row) (field : string * string) : Prop :=
  is_Some (attributes row !! field.1) ∧ field.1 ∉ managed.

#[export] Instance settable_dec row field : Decision (settable row field).
Proof. unfold settable. apply _. Defined.

(** [instance.update(values)]: the values given for columns of the row
    overwrite the stored ones, the other values are dropped, and the row is
    written back under its key. *)
Definition update (table : Table) (instance : Instance_)
    (values : Attributes) : Instance_ * Table :=
  let row := {| createdAt := createdAt instance.2;
                attributes := filter (settable instance.2) values
                              ∪ attributes instance.2 |} in
  ((instance.1, row), <[instance.1 := row]> table).

(** [instance.destroy()] *)
Definition destroy (table : Table) (instance : Instance_) : Table :=
  delete instance.1 table.

(** Row order under [ORDER BY createdAt <direction>]. *)
Definition precedes (d : Direction) (x y : Instance_) : Prop :=
  match d with
  | ASC => createdAt x.2 ≤ createdAt y.2
  | DESC => createdAt y.2 ≤ createdAt x.2
  end.

#[export] Instance precedes_dec d x y : Decision (precedes d x y).
Proof. destruct d; simpl; apply _. Defined.

Definition orderBy (order : list (string * Direction))
    (rows : list Instance_) : list Instance_ :=
  match order with
  | [(column, d)] =>
      if String.eqb column "createdAt" then merge_sort (precedes d) rows
      else rows
  | _ => rows
  end.

(** [Model.findAll({ limit, offset, order, include })]: order the rows,
    skip [offset] of them, keep at most [limit].  The associations named
    by [include] are fetched along with each row and are not part of the
    row list itself.  A negative [limit] or [offset], which a database
    rejects or reads in its own way, counts as 0 here; the statements about
    pages are for a positive limit and a page from 1 on.  Rows created at
    the same time come in the order of their keys here, whereas a database
    is free in that; the statements about which rows come where are for
    tables without such ties. *)
Definition findAll (table : Table) (options : FindOptions) : list Instance_ :=
  take (Z.to_nat (opt_limit options))
    (drop (Z.to_nat (opt_offset options))
       (orderBy (opt_order options) (map_to_list table))).

End Sequelize.

Import Sequelize.

(** ** HTTP envelope *)

Module Http.

(** [req.query] as far as the list handlers read it. *)
Record Query := {
  limit : QueryValue;
  page : QueryValue;
  sort : QueryValue;
  populate : QueryValue;
}.

Record Request := {
  query : Query;
  params_id : Z;
  body : Attributes;
}.

Record Meta := {
  totalItems : Z;
  meta_page : Z;
  totalPages : Z;
}.

(** The JSON bodies the controllers send. *)
Inductive Json :=
| JMessage (message : string)
| JError (error : string)
| JInstance (instance : Instance_)
| JList (meta : Meta) (data : list Instance_)
| JToken (token : string).

(** [res.status(s).json(j)]; [res.json(j)] alone sends status 200. *)
Record Response := {
  status : Z;
  json : Json;
}.

Definition res_json (j : Json) : Response := {| status := 200; json := j |}.

End Http.

Import Http.

(** ** Controllers *)

(** A route handler reads the table of its model and the request, sends one
    response and leaves the table as the persistence calls made it. *)
Definition Handler := Table → Request → Response * Table.

Definition serverError (message : string) : Response :=
  {| status := 500; json := JError message |}.

Definition notFound : Response :=
  {| status := 404; json := JMessage "Not found" |}.

(** The two assignments through [validRelations.CourseId] that the list
    handlers make. *)
Module Relations.
Abbreviation t := (Object.t IncludeOptions).

Definition freshCourse : IncludeOptions := mkInclude db.Course (Some []).

(** [validRelations.CourseId.include = items] *)
Definition setInclude (items : list IncludeOptions) (validRelations : t)
    : Result t :=
  match Object.get "CourseId" validRelations with
  | Some (mkInclude m _) =>
      Ok (Object.set "CourseId" (mkInclude m (Some items)) validRelations)
  | None => Throw "Cannot set properties of undefined (setting 'include')"
  end.

(** [validRelations.CourseId.include.push(item)] *)
Definition pushInclude (item : IncludeOptions) (validRelations : t)
    : Result t :=
  match Object.get "CourseId" validRelations with
  | Some (mkInclude m (Some items)) =>
      Ok (Object.set "CourseId" (mkInclude m (Some (items ++ [item])))
            validRelations)
  | Some (mkInclude m None) =>
      Throw "Cannot read properties of undefined (reading 'push')"
  | None => Throw "Cannot read properties of undefined (reading 'include')"
  end.
End Relations.

Module StudentController.

(** [parseInt(req.query.limit) || 10] *)
Definition limit (q : Query) : Z := orDefault (parseInt (Http.limit q)) 10.

(** [parseInt(req.query.page) || 1] *)
Definition page (q : Query) : Z := orDefault (parseInt (Http.page q)) 1.

(** [req.query.sort === 'desc' ? 'DESC' : 'ASC'] *)
Definition sortOrder (q : Query) : Direction :=
  if strictEquals (Http.sort q) (js "desc") then DESC else ASC.

(** One turn of the loop over [relations]. *)
Definition visit (validRelations : Relations.t) (rel : jsstring)
    : Result Relations.t :=
  validRelations ←
    (if bool_decide (rel = js "CourseId")
     then Relations.setInclude [] validRelations
     else Ok validRelations);
  if bool_decide (rel = js "TeacherId") then
    match Object.get "CourseId" validRelations with
    | Some _ =>
        Relations.pushInclude (mkInclude db.Teacher None) validRelations
    | None =>
        Ok (Object.set "CourseId"
              (mkInclude db.Course (Some [mkInclude db.Teacher None]))
              validRelations)
    end
  else Ok validRelations.

(** The [include] list built from [req.query.populate]. *)
Definition include (populate : QueryValue) : Result (list IncludeOptions) :=
  let validRelations : Relations.t := [("CourseId", Relations.freshCourse)] in
  if truthy populate then
    relations ← splitTrim populate;
    validRelations ← forOf visit relations validRelations;
    Ok (Object.values validRelations)
  else Ok [].

(** The options of the [findAll] call. *)
Definition findOptions (q : Query) : Result FindOptions :=
  include ← include (Http.populate q);
  Ok {| opt_limit := limit q;
        opt_offset := (page q - 1) * limit q;
        opt_order := [("createdAt", sortOrder q)];
        opt_include := include |}.

(** [GET /students] *)
Definition getAllStudents : Handler := λ Student req,
  catch
    (options ← findOptions (query req);
     let total := count Student in
     let students := findAll Student options in
     Ok (res_json
           (JList {| totalItems := total;
                     meta_page := page (query req);
                     totalPages :=
                       Math.ceil (divide total (limit (query req))) |}
              students),
         Student))
    (λ message, (serverError message, Student)).

(** [GET /students/:id] *)
Definition getStudentById : Handler := λ Student req,
  catch
    (match findByPk Student (params_id req) [mkInclude db.Course None] with
     | None => Ok (notFound, Student)
     | Some student => Ok (res_json (JInstance student), Student)
     end)
    (λ message, (serverError message, Student)).

(** [PUT /students/:id] *)
Definition updateStudent : Handler := λ Student req,
  catch
    (match findByPk Student (params_id req) [] with
     | None => Ok (notFound, Student)
     | Some student =>
         let '(student, Student) := update Student student (body req) in
         Ok (res_json (JInstance student), Student)
     end)
    (λ message, (serverError message, Student)).

(** [DELETE /students/:id] *)
Definition deleteStudent : Handler := λ Student req,
  catch
    (match findByPk Student (params_id req) [] with
     | None => Ok (notFound, Student)
     | Some student =>
         Ok (res_json (JMessage "Deleted"), destroy Student student)
     end)
    (λ message, (serverError message, Student)).

End StudentController.

Module TeacherController.

(** [parseInt(req.query.limit) || 10] *)
Definition limit (q : Query) : Z := orDefault (parseInt (Http.limit q)) 10.

(** [parseInt(req.query.page) || 1] *)
Definition page (q : Query) : Z := orDefault (parseInt (Http.page q)) 1.

(** [req.query.sort === 'desc' ? 'DESC' : 'ASC'] *)
Definition sortOrder (q : Query) : Direction :=
  if strictEquals (Http.sort q) (js "desc") then DESC else ASC.

(** The [include] list built from [req.query.populate]. *)
Definition include (populate : QueryValue) : Result (list IncludeOptions) :=
  if truthy populate then
    relations ← splitTrim populate;
    let validRelations : Relations.t := [] in
    let validRelations :=
      if includes relations (js "CourseId")
      then Object.set "CourseId" Relations.freshCourse validRelations
      else validRelations in
    validRelations ←
      (if includes relations (js "StudentId") then
         let validRelations :=
           match Object.get "CourseId" validRelations with
           | None =>
               Object.set "CourseId" Relations.freshCourse validRelations
           | Some _ => validRelations
           end in
         Relations.pushInclude (mkInclude db.Student None) validRelations
       else Ok validRelations);
    Ok (Object.values validRelations)
  else Ok [].

(** The options of the [findAll] call. *)
Definition findOptions (q : Query) : Result FindOptions :=
  include ← include (Http.populate q);
  Ok {| opt_limit := limit q;
        opt_offset := (page q - 1) * limit q;
        opt_order := [("createdAt", sortOrder q)];
        opt_include := include |}.

(** [GET /teachers] *)
Definition getAllTeachers : Handler := λ Teacher req,
  catch
    (options ← findOptions (query req);
     let total := count Teacher in
     let teachers := findAll Teacher options in
     Ok (res_json
           (JList {| totalItems := total;
                     meta_page := page (query req);
                     totalPages :=
                       Math.ceil (divide total (limit (query req))) |}
              teachers),
         Teacher))
    (λ message, (serverError message, Teacher)).

(** [GET /teachers/:id] *)
Definition getTeacherById : Handler := λ Teacher req,
  catch
    (match findByPk Teacher (params_id req) [mkInclude db.Course None] with
     | None => Ok (notFound, Teacher)
     | Some teacher => Ok (res_json (JInstance teacher), Teacher)
     end)
    (λ message, (serverError message, Teacher)).

(** [PUT /teachers/:id] *)
Definition updateTeacher : Handler := λ Teacher req,
  catch
    (match findByPk Teacher (params_id req) [] with
     | None => Ok (notFound, Teacher)
     | Some teacher =>
         let '(teacher, Teacher) := update Teacher teacher (body req) in
         Ok (res_json (JInstance teacher), Teacher)
     end)
    (λ message, (serverError message, Teacher)).

(** [DELETE /teachers/:id] *)
Definition deleteTeacher : Handler := λ Teacher req,
  catch
    (match findByPk Teacher (params_id req) [] with
     | None => Ok (notFound, Teacher)
     | Some teacher =>
         Ok (res_json (JMessage "Deleted"), destroy Teacher teacher)
     end)
    (λ message, (serverError message, Teacher)).

End TeacherController.

Module AuthController.

(** Modelled from the spec: the User model is not among the sources.  A
    user has an id, a name, a unique email and a hashed password. *)
Record User := {
  id : Z;
  name : string;
  email : string;
  password : string;
}.

(** [db.User.findOne({ where: { email } })]: the first user with that
    address, or [null]. *)
Definition findOne (users : list User) (where_email : string) : option User :=
  List.find (λ u, String.eqb (email u) where_email) users.

(** [process.env] as far as [login] reads it. *)
Record Env := {
  JWT_SECRET : option string;
  JWT_EXPIRES_IN : option string;
}.

(** The payload and the options handed to [jwt.sign]. *)
Record Payload := {
  userId : Z;
  payload_email : string;
}.

Record SignOptions := {
  expiresIn : string;
}.

(** [req.body] of a login request, destructured. *)
Record Credentials := {
  cred_email : string;
  cred_password : string;
}.

Section Login.
(** The two library calls of [login], each free to return or to throw:
    [bcrypt.compare(plain, hash)] and [jwt.sign(payload, secret,
    options)]. *)
Variable bcrypt_compare : string → string → Result bool.
Variable jwt_sign : Payload → option string → SignOptions → Result string.

Definition unauthorized : Response :=
  {| status := 401; json := JError "Invalid email or password" |}.

(** [POST /login] *)
Definition login (env : Env) (users : list User) (req : Credentials)
    : Response :=
  catch
    (let user := findOne users (cred_email req) in
     match user with
     | None => Ok unauthorized
     | Some user =>
         matches ← bcrypt_compare (cred_password req) (password user);
         if negb matches then Ok unauthorized
         else
           token ← jwt_sign
                     {| userId := id user; payload_email := email user |}
                     (JWT_SECRET env)
                     {| expiresIn :=
                          orDefaultString (JWT_EXPIRES_IN env) "1h" |};
           Ok (res_json (JToken token))
     end)
    serverError.
End Login.

(** [req.body] of a registration, destructured. *)
Record Registration := {
  reg_name : string;
  reg_email : string;
  reg_password : string;
}.

(** The JSON bodies [register] sends. *)
Inductive RegisterJson :=
| JRegistered (message : string) (userId : Z)
| JRegisterError (error : string).

Record RegisterResponse := {
  reg_status : Z;
  reg_json : RegisterJson;
}.

(** What the database makes of an insert into the users: a rejection
    with a message, or the key it assigns. *)
Inductive UserInsertion :=
| UserRejected (message : string)
| UserAssigned (id : Z).

(** [db.User.create({ name, email, password })] *)
Definition createUser (users : list User) (decision : UserInsertion)
    (name email password : string) : Result (User * list User) :=
  match decision with
  | UserRejected message => Throw message
  | UserAssigned id =>
      let user := {| id := id; name := name; email := email;
                     password := password |} in
      Ok (user, users ++ [user])
  end.

Section Register.
(** [bcrypt.hash(plain, rounds)], free to return or to throw. *)
Variable bcrypt_hash : string → Z → Result string.

(** [POST /register] *)
Definition register (decision : UserInsertion) (users : list User)
    (req : Registration) : RegisterResponse * list User :=
  catch
    (hashedPassword ← bcrypt_hash (reg_password req) 10;
     '(user, users) ← createUser users decision (reg_name req)
                        (reg_email req) hashedPassword;
     Ok ({| reg_status := 201;
            reg_json := JRegistered "User registered" (id user) |}, users))
    (λ message,
       ({| reg_status := 500; reg_json := JRegisterError message |}, users)).
End Register.

End AuthController.

(** ** Vocabulary of the statements *)

(** An include list carries a Course node. *)
Definition hasCourse (include : list IncludeOptions) : Prop :=
  ∃ i, i ∈ include ∧ model i = db.Course.

(** The tokens of a [populate] string: split on commas, each trimmed. *)
Definition tokens (s : jsstring) : list jsstring := trim <$> split s.

(** What one token does to the list nested under the Course node of a
    Student listing. *)
Definition studentNested (nested : list IncludeOptions) (rel : jsstring)
    : list IncludeOptions :=
  (if bool_decide (rel = js "CourseId") then [] else nested)
  ++ (if bool_decide (rel = js "TeacherId")
      then [mkInclude db.Teacher None] else []).

(** The include list a Teacher listing builds from its tokens. *)
Definition teacherTree (relations : list jsstring) : list IncludeOptions :=
  if includes relations (js "StudentId")
  then [mkInclude db.Course (Some [mkInclude db.Student None])]
  else if includes relations (js "CourseId")
       then [mkInclude db.Course (Some [])]
       else [].

(** A request that sets one query parameter and leaves the others out. *)
Definition noQuery : Query :=
  {| limit := QUndefined; page := QUndefined;
     sort := QUndefined; populate := QUndefined |}.

Definition withLimit (v : QueryValue) : Query :=
  {| limit := v; page := QUndefined;
     sort := QUndefined; populate := QUndefined |}.

Definition withPage (v : QueryValue) : Query :=
  {| limit := QUndefined; page := v;
     sort := QUndefined; populate := QUndefined |}.

Definition withSort (v : QueryValue) : Query :=
  {| limit := QUndefined; page := QUndefined;
     sort := v; populate := QUndefined |}.

Definition withPopulate (v : QueryValue) : Query :=
  {| limit := QUndefined; page := QUndefined;
     sort := QUndefined; populate := v |}.

(** Three rows created at times 30, 10 and 20, under keys 1, 2, 3. *)
Definition sampleTable : Table :=
  list_to_map
    [(1, {| createdAt := 30; attributes := ∅ |});
     (2, {| createdAt := 10; attributes := ∅ |});
     (3, {| createdAt := 20; attributes := ∅ |})].

(** [?limit=2&page=2&sort=desc] *)
Definition secondPage : Request :=
  {| query := {| limit := QString (js "2"); page := QString (js "2");
                 sort := QString (js "desc"); populate := QUndefined |};
     params_id := 0;
     body := ∅ |}.

(** A request on [/:id]. *)
Definition onId (id : Z) : Request :=
  {| query := noQuery; params_id := id; body := ∅ |}.

(** Stand-ins for the two library calls of [login], for running it: the
    stored hash is the password itself, and signing needs a secret. *)
Definition plainCompare (plain hash : string) : Result bool :=
  Ok (String.eqb plain hash).

Definition tagSign (payload : AuthController.Payload)
    (secret : option string) (options : AuthController.SignOptions)
    : Result string :=
  match secret with
  | Some key =>
      Ok (AuthController.payload_email payload +:+ "/"
          +:+ AuthController.expiresIn options +:+ "/" +:+ key)
  | None => Throw "secretOrPrivateKey must have a value"
  end.

Definition sampleUsers : list AuthController.User :=
  [ {| AuthController.id := 7; AuthController.name := "Ada";
       AuthController.email := "ada@school.test";
       AuthController.password := "s3cret" |} ].

Definition sampleEnv : AuthController.Env :=
  {| AuthController.JWT_SECRET := Some "k";
     AuthController.JWT_EXPIRES_IN := None |}.

(** [String(n)] for a non-negative integer: its decimal digits, the last
    one first into [acc]. *)
Fixpoint digitsOf (fuel : nat) (n : Z) (acc : jsstring) : jsstring :=
  match fuel with
  | O => acc
  | S fuel =>
      let acc := Z.to_N (48 + n mod 10) :: acc in
      if n <? 10 then acc else digitsOf fuel (n / 10) acc
  end.

Definition numeral (n : Z) : jsstring := digitsOf (S (Z.to_nat n)) n [].

Definition isDigit (c : N) : Prop := (48 ≤ c ≤ 57)%N.

(** A query with its [limit], or its [page], replaced. *)
Definition setLimit (q : Query) (v : QueryValue) : Query :=
  {| limit := v; page := page q; sort := sort q; populate := populate q |}.

Definition setPage (q : Query) (v : QueryValue) : Query :=
  {| limit := limit q; page := v; sort := sort q; populate := populate q |}.

(** The same request for page [p], written in decimal. *)
Definition onPage (req : Request) (p : Z) : Request :=
  {| query := setPage (query req) (QString (numeral p));
     params_id := params_id req;
     body := body req |}.

(** The rows of a list answer; none for any other answer. *)
Definition dataOf (answer : Response * Table) : list Instance_ :=
  match json answer.1 with
  | JList _ data => data
  | _ => []
  end.

(** The rows of a table in the order of a listing. *)
Definition listing (d : Direction) (table : Table) : list Instance_ :=
  orderBy [("createdAt", d)] (map_to_list table).

(** A stand-in for [bcrypt.hash], for running [register]: the hash is the
    password itself, as [plainCompare] expects. *)
Definition plainHash (plain : string) (rounds : Z) : Result string :=
  Ok plain.

(** The same request with another [sort]. *)
Definition onSort (req : Request) (v : QueryValue) : Request :=
  {| query := {| limit := limit (query req); page := page (query req);
                 sort := v; populate := populate (query req) |};
     params_id := params_id req;
     body := body req |}.

(** No two rows of the table were created at the same time. *)
Definition distinctTimes (table : Table) : Prop :=
  ∀ i j row row',
    table !! i = Some row → table !! j = Some row' →
    createdAt row = createdAt row' → i = j.

(** A populate parameter without surprises for the ORM: absent, or a
    string in which no token comes twice. *)
Definition plainPopulate (v : QueryValue) : Prop :=
  v = QUndefined ∨ ∃ s, v = QString s ∧ NoDup (tokens s).



(** [?limit=3&sort=desc] and [?limit=3&sort=asc] *)
Definition newestFirst : Request :=
  {| query := {| limit := QString (js "3"); page := QUndefined;
                 sort := QString (js "desc"); populate := QUndefined |};
     params_id := 0;
     body := ∅ |}.

Definition oldestFirst : Request :=
  {| query := {| limit := QString (js "3"); page := QUndefined;
                 sort := QString (js "asc");
                 populate := QString (js "CourseId") |};
     params_id := 0;
     body := ∅ |}.

(** A query with a [limit] and a [page] and nothing else. *)
Definition withLimitAndPage (l p : QueryValue) : Query :=
  {| limit := l; page := p; sort := QUndefined; populate := QUndefined |}.

(** What a page of at most [L] rows of a table looks like: no more than
    [L] rows, the count of the whole table, and the number of pages that
    count makes, which is the least number of pages of [L] rows that hold
    every row. *)
Definition paged (table : Table) (L : Z) (meta : Meta)
    (data : list Instance_) : Prop :=
  Z.of_nat (length data) ≤ L
  ∧ totalItems meta = Z.of_nat (size table)
  ∧ totalPages meta = Math.ceil (divide (totalItems meta) L)
  ∧ (totalPages meta - 1) * L < totalItems meta ≤ totalPages meta * L.

(** ** Strings *)

Lemma split_nonempty s : split s ≠ [].
Proof.
  destruct s as [|c r]; simpl; [done|].
  destruct (c =? comma)%N; [done|]. by destruct (split r).
Qed.

Lemma split_singleton_nil s : split s = [[]] → s = [].
Proof.
  destruct s as [|c r]; simpl; [done|].
  destruct (c =? comma)%N; [|destruct (split r); done].
  intros [= H]. by apply split_nonempty in H.
Qed.

Lemma tokens_nil_string : tokens [] = [[]].
Proof. reflexivity. Qed.

Lemma split_no_comma s t : t ∈ split s → comma ∉ t.
Proof.
  revert t. induction s as [|c r IH]; intros t; simpl.
  - intros ->%list_elem_of_singleton. apply not_elem_of_nil.
  - destruct (N.eqb_spec c comma) as [->|Hc].
    + intros [->|Ht]%elem_of_cons; [apply not_elem_of_nil|by apply IH].
    + destruct (split r) as [|t' ts] eqn:Hsplit.
      * intros ->%list_elem_of_singleton.
        intros [?|[]%elem_of_nil]%elem_of_cons. congruence.
      * intros [->|Ht]%elem_of_cons.
        -- intros [?|Hin]%elem_of_cons; [congruence|].
           revert Hin. apply IH, list_elem_of_here.
        -- by apply IH, list_elem_of_further.
Qed.

(** Splitting loses nothing: joining the pieces gives the string back. *)
Lemma join_split s : join (split s) = s.
Proof.
  induction s as [|c r IH]; [done|]. simpl.
  destruct (N.eqb_spec c comma) as [->|Hc].
  - pose proof (split_nonempty r) as Hne.
    cbn [join]. destruct (split r) as [|t ts] eqn:Hsplit; [done|].
    by rewrite IH.
  - pose proof (split_nonempty r) as Hne.
    destruct (split r) as [|t ts] eqn:Hsplit; [done|].
    cbn [join] in IH |- *. destruct ts; by rewrite <- IH.
Qed.

Lemma trimStart_idemp s : trimStart (trimStart s) = trimStart s.
Proof.
  induction s as [|c r IH]; [done|]. simpl.
  destruct (isWhiteSpace c) eqn:Hc; [done|]. simpl. by rewrite Hc.
Qed.

Lemma trimStart_snoc s x :
  isWhiteSpace x = false → trimStart (s ++ [x]) = trimStart s ++ [x].
Proof.
  intros Hx. induction s as [|c r IH]; simpl.
  - by rewrite Hx.
  - by destruct (isWhiteSpace c).
Qed.

Lemma trimStart_head s : trimStart s = [] ∨
  ∃ c r, trimStart s = c :: r ∧ isWhiteSpace c = false.
Proof.
  induction s as [|c r IH]; [by left|]. simpl.
  destruct (isWhiteSpace c) eqn:Hc; [done|]. right. by exists c, r.
Qed.

(** A trimmed string has nothing left to trim at either end. *)
Lemma trim_trimmed s :
  trimStart (trim s) = trim s ∧ trimEnd (trim s) = trim s.
Proof.
  unfold trim, trimEnd. split.
  - destruct (trimStart_head s) as [->|(c & r & -> & Hc)]; [done|].
    rewrite reverse_cons, (trimStart_snoc _ _ Hc), reverse_snoc.
    simpl. by rewrite Hc.
  - by rewrite reverse_involutive, trimStart_idemp.
Qed.

(** ** The runtime at work *)

Example parseInt_reads_a_prefix :
  parseInt (QString (js "  42abc")) = Num 42
  ∧ parseInt (QString (js "-17")) = Num (-17)
  ∧ parseInt (QString (js "0x1A")) = Num 26
  ∧ parseInt (QString (js "abc")) = NaN
  ∧ parseInt (QString (js "")) = NaN
  ∧ parseInt QUndefined = NaN
  ∧ parseInt (QArray [QString (js "5"); QString (js "6")]) = Num 5
  ∧ parseInt QObject = NaN.
Proof. repeat split. Qed.

Example tokens_are_trimmed :
  tokens (js " CourseId , StudentId,,x ")
  = [js "CourseId"; js "StudentId"; js ""; js "x"].
Proof. reflexivity. Qed.

(** ** The include tree of a Student listing *)

Lemma student_visit nested rel :
  StudentController.visit
    [("CourseId", mkInclude db.Course (Some nested))] rel
  = Ok [("CourseId", mkInclude db.Course (Some (studentNested nested rel)))].
Proof.
  unfold StudentController.visit, studentNested.
  destruct (bool_decide (rel = js "CourseId"));
    destruct (bool_decide (rel = js "TeacherId")); cbn;
    by rewrite ?app_nil_r.
Qed.

Lemma student_forOf relations : ∀ nested,
  forOf StudentController.visit relations
    [("CourseId", mkInclude db.Course (Some nested))]
  = Ok [("CourseId",
         mkInclude db.Course (Some (foldl studentNested nested relations)))].
Proof.
  induction relations as [|rel relations IH]; intros nested; [done|].
  cbn [forOf foldl]. rewrite student_visit. cbn. apply IH.
Qed.

Lemma student_include_string c s :
  StudentController.include (QString (c :: s))
  = Ok [mkInclude db.Course
          (Some (foldl studentNested [] (tokens (c :: s))))].
Proof.
  unfold StudentController.include, Relations.freshCourse.
  cbn [truthy splitTrim]. cbn [mbind Result_bind].
  fold (tokens (c :: s)). by rewrite student_forOf.
Qed.

Lemma hasCourse_nil : ¬ hasCourse [].
Proof. intros (i & Hi & _). by apply elem_of_nil in Hi. Qed.

Lemma hasCourse_head nested rest :
  hasCourse (mkInclude db.Course nested :: rest).
Proof. eexists. split; [apply list_elem_of_here|done]. Qed.

(** C9: on a Student listing the Course node is in the include list
    exactly when [populate] is a non-empty string, whatever its tokens are;
    with [populate] absent or empty the include list is empty. *)
Theorem student_course_iff_populate_nonempty (populate : QueryValue) :
  ((∃ include,
      StudentController.include populate = Ok include ∧ hasCourse include)
   ↔ ∃ s, populate = QString s ∧ s ≠ [])
  ∧ (populate = QUndefined ∨ populate = QString [] →
     StudentController.include populate = Ok []).
Proof.
  destruct populate as [|[|c s]|items|].
  - split; [|done]. split.
    + intros (include & [= <-] & H). by apply hasCourse_nil in H.
    + by intros (s & ? & _).
  - split; [|done]. split.
    + intros (include & [= <-] & H). by apply hasCourse_nil in H.
    + by intros (s & [= <-] & ?).
  - rewrite student_include_string. split.
    + split; [by eexists|]. intros _. eexists. split; [done|].
      apply hasCourse_head.
    + by intros [|].
  - split; [|by intros [|]]. split.
    + by intros (include & ? & _).
    + by intros (s & ? & _).
  - split; [|by intros [|]]. split.
    + by intros (include & ? & _).
    + by intros (s & ? & _).
Qed.

(** The same at two requests: a string of unrecognized tokens brings the
    Course node in, an absent parameter does not. *)
Lemma student_course_iff_populate_nonempty_witness :
  (∃ include,
     StudentController.include (QString (js "x,y")) = Ok include
     ∧ hasCourse include)
  ∧ StudentController.include QUndefined = Ok [].
Proof.
  split.
  - apply (proj1 (student_course_iff_populate_nonempty (QString (js "x,y")))).
    eexists. split; [reflexivity|]. vm_compute. discriminate.
  - apply (proj2 (student_course_iff_populate_nonempty QUndefined)).
    left. reflexivity.
Defined.

(** ** The include tree of a Teacher listing *)

Lemma teacher_include_string s :
  TeacherController.include (QString s) = Ok (teacherTree (tokens s)).
Proof.
  destruct s as [|c s]; [done|].
  unfold TeacherController.include, teacherTree, Relations.freshCourse.
  cbn [truthy splitTrim]. cbn [mbind Result_bind]. fold (tokens (c :: s)).
  destruct (includes (tokens (c :: s)) (js "StudentId"));
    by destruct (includes (tokens (c :: s)) (js "CourseId")).
Qed.

Lemma includes_true relations literal :
  includes relations literal = true ↔ literal ∈ relations.
Proof. unfold includes. by rewrite bool_decide_eq_true. Qed.

Lemma includes_false relations literal :
  includes relations literal = false ↔ literal ∉ relations.
Proof. unfold includes. by rewrite bool_decide_eq_false. Qed.

Lemma teacherTree_ext relations relations' :
  (js "CourseId" ∈ relations ↔ js "CourseId" ∈ relations') →
  (js "StudentId" ∈ relations ↔ js "StudentId" ∈ relations') →
  teacherTree relations = teacherTree relations'.
Proof.
  intros HC HS. unfold teacherTree, includes.
  by rewrite (bool_decide_ext _ _ HC), (bool_decide_ext _ _ HS).
Qed.

(** C3: on a Teacher listing a [CourseId] token gives a Course node, a
    [StudentId] token gives a Student node nested under a Course node
    (made for the purpose when no [CourseId] token asked for it), and the
    tree depends on nothing but the presence of these two tokens: with
    neither the list is empty, and two strings that agree on both build the
    same tree. *)
Theorem teacher_populate_tokens (s : jsstring) :
  (js "CourseId" ∈ tokens s →
   ∃ nested,
     TeacherController.include (QString s)
     = Ok [mkInclude db.Course (Some nested)])
  ∧ (js "StudentId" ∈ tokens s →
     TeacherController.include (QString s)
     = Ok [mkInclude db.Course (Some [mkInclude db.Student None])])
  ∧ (js "CourseId" ∈ tokens s → js "StudentId" ∉ tokens s →
     TeacherController.include (QString s)
     = Ok [mkInclude db.Course (Some [])])
  ∧ (js "CourseId" ∉ tokens s → js "StudentId" ∉ tokens s →
     TeacherController.include (QString s) = Ok [])
  ∧ (∀ s',
       (js "CourseId" ∈ tokens s ↔ js "CourseId" ∈ tokens s') →
       (js "StudentId" ∈ tokens s ↔ js "StudentId" ∈ tokens s') →
       TeacherController.include (QString s)
       = TeacherController.include (QString s')).
Proof.
  rewrite teacher_include_string.
  split; [|split; [|split; [|split]]].
  - intros HC%includes_true. unfold teacherTree. rewrite HC.
    destruct (includes (tokens s) (js "StudentId")); by eexists.
  - intros HS%includes_true. unfold teacherTree. by rewrite HS.
  - intros HC%includes_true HS%includes_false. unfold teacherTree.
    by rewrite HS, HC.
  - intros HC%includes_false HS%includes_false. unfold teacherTree.
    by rewrite HS, HC.
  - intros s' HC HS. rewrite teacher_include_string.
    f_equal. by apply teacherTree_ext.
Qed.

(** [populate=extra, StudentId ,CourseId]: white space around a token is
    dropped, the Student node sits under the Course node, and the
    unrecognized token changes nothing. *)
Lemma teacher_populate_tokens_witness :
  TeacherController.include (QString (js "StudentId"))
  = Ok [mkInclude db.Course (Some [mkInclude db.Student None])]
  ∧ TeacherController.include (QString (js "extra, StudentId ,CourseId"))
    = Ok [mkInclude db.Course (Some [mkInclude db.Student None])]
  ∧ TeacherController.include (QString (js "extra, StudentId ,CourseId"))
    = TeacherController.include (QString (js "CourseId,StudentId")).
Proof.
  split; [|split].
  - apply (proj1 (proj2 (teacher_populate_tokens (js "StudentId")))).
    vm_compute. apply list_elem_of_here.
  - apply (proj1 (proj2
      (teacher_populate_tokens (js "extra, StudentId ,CourseId")))).
    vm_compute. apply list_elem_of_further, list_elem_of_here.
  - apply (proj2 (proj2 (proj2 (proj2
      (teacher_populate_tokens (js "extra, StudentId ,CourseId")))))).
    + split; intros _; vm_compute.
      * apply list_elem_of_here.
      * apply list_elem_of_further, list_elem_of_further, list_elem_of_here.
    + split; intros _; vm_compute.
      * apply list_elem_of_further, list_elem_of_here.
      * apply list_elem_of_further, list_elem_of_here.
Defined.

(** ** Default inclusion of Course *)

Lemma student_findOptions_include q options :
  StudentController.findOptions q = Ok options →
  StudentController.include (populate q) = Ok (opt_include options).
Proof.
  unfold StudentController.findOptions.
  destruct (StudentController.include (populate q)); [|done].
  by intros [= <-].
Qed.

Lemma teacher_findOptions_include q options :
  TeacherController.findOptions q = Ok options →
  TeacherController.include (populate q) = Ok (opt_include options).
Proof.
  unfold TeacherController.findOptions.
  destruct (TeacherController.include (populate q)); [|done].
  by intros [= <-].
Qed.

(** C1, as stated, fails: a Student listing without [populate] builds a
    fetch spec whose include list has no Course node. *)
Lemma student_no_course_without_populate :
  ¬ (∀ q options,
       StudentController.findOptions q = Ok options →
       hasCourse (opt_include options)).
Proof.
  intros H. apply hasCourse_nil.
  exact (H noQuery _ eq_refl).
Qed.

(** C1, amended: a Student listing carries the Course node whenever
    [populate] is a non-empty string and has an empty include list when
    [populate] is absent; a Teacher listing carries the Course node only
    when [populate] is a string with a [CourseId] or [StudentId] token. *)
Theorem course_include_presence (q : Query) :
  (∀ s, populate q = QString s → s ≠ [] →
     ∃ options,
       StudentController.findOptions q = Ok options
       ∧ hasCourse (opt_include options))
  ∧ (populate q = QUndefined →
     ∃ options,
       StudentController.findOptions q = Ok options
       ∧ opt_include options = [])
  ∧ (∀ options,
       TeacherController.findOptions q = Ok options →
       hasCourse (opt_include options) →
       ∃ s, populate q = QString s
            ∧ (js "CourseId" ∈ tokens s ∨ js "StudentId" ∈ tokens s)).
Proof.
  split; [|split].
  - intros [|c s] Hq Hs; [done|].
    unfold StudentController.findOptions.
    rewrite Hq, student_include_string. eexists. split; [reflexivity|].
    apply hasCourse_head.
  - intros Hq. unfold StudentController.findOptions. rewrite Hq.
    by eexists.
  - intros options Hopt%teacher_findOptions_include Hcourse.
    destruct (populate q) as [|s|items|] eqn:Hq.
    + injection Hopt as Hopt. rewrite <- Hopt in Hcourse.
      by apply hasCourse_nil in Hcourse.
    + exists s. split; [done|].
      rewrite teacher_include_string in Hopt. injection Hopt as Hopt.
      rewrite <- Hopt in Hcourse. unfold teacherTree in Hcourse.
      destruct (includes (tokens s) (js "StudentId")) eqn:HS;
        [right; by apply includes_true|].
      destruct (includes (tokens s) (js "CourseId")) eqn:HC;
        [left; by apply includes_true|].
      by apply hasCourse_nil in Hcourse.
    + discriminate Hopt.
    + discriminate Hopt.
Qed.

(** [GET /students?populate=TeacherId] carries the Course node, and
    [GET /students] has an empty include list. *)
Lemma course_include_presence_witness :
  (∃ options,
     StudentController.findOptions (withPopulate (QString (js "TeacherId")))
     = Ok options
     ∧ hasCourse (opt_include options))
  ∧ (∃ options,
       StudentController.findOptions noQuery = Ok options
       ∧ opt_include options = []).
Proof.
  split.
  - apply (proj1 (course_include_presence
                    (withPopulate (QString (js "TeacherId"))))
             (js "TeacherId")); [reflexivity|].
    vm_compute. discriminate.
  - apply (proj1 (proj2 (course_include_presence noQuery))). reflexivity.
Defined.

(** ** Token order and repetition *)

(** C2 at the requests where the Student listing departs from it: the
    two orders of [CourseId] and [TeacherId] are the same tokens and build
    different trees, the Teacher node being dropped when [CourseId] comes
    second; and a repeated [TeacherId] nests the Teacher node twice. *)
Theorem student_populate_order_and_repeat :
  tokens (js "CourseId,TeacherId") ≡ₚ tokens (js "TeacherId,CourseId")
  ∧ StudentController.include (QString (js "CourseId,TeacherId"))
    = Ok [mkInclude db.Course (Some [mkInclude db.Teacher None])]
  ∧ StudentController.include (QString (js "TeacherId,CourseId"))
    = Ok [mkInclude db.Course (Some [])]
  ∧ StudentController.include (QString (js "CourseId,TeacherId"))
    ≠ StudentController.include (QString (js "TeacherId,CourseId"))
  ∧ StudentController.include (QString (js "TeacherId"))
    = Ok [mkInclude db.Course (Some [mkInclude db.Teacher None])]
  ∧ StudentController.include (QString (js "TeacherId,TeacherId"))
    = Ok [mkInclude db.Course
            (Some [mkInclude db.Teacher None; mkInclude db.Teacher None])]
  ∧ StudentController.include (QString (js "TeacherId"))
    ≠ StudentController.include (QString (js "TeacherId,TeacherId")).
Proof.
  split; [apply Permutation_swap|].
  repeat split; try reflexivity; vm_compute; intros [=].
Qed.

(** On a Teacher listing the tree is a function of the set of tokens:
    two strings with the same tokens, in any order and any number of times,
    build the same tree. *)
Theorem teacher_populate_set_of_tokens (s s' : jsstring) :
  (∀ t, t ∈ tokens s ↔ t ∈ tokens s') →
  TeacherController.include (QString s)
  = TeacherController.include (QString s').
Proof.
  intros H. rewrite !teacher_include_string. f_equal.
  apply teacherTree_ext; apply H.
Qed.

(** In particular the order of the tokens does not matter. *)
Theorem teacher_populate_permutation (s s' : jsstring) :
  tokens s ≡ₚ tokens s' →
  TeacherController.include (QString s)
  = TeacherController.include (QString s').
Proof.
  intros H. rewrite !teacher_include_string. f_equal.
  apply teacherTree_ext; by rewrite H.
Qed.

Lemma teacher_populate_set_of_tokens_witness :
  TeacherController.include (QString (js "StudentId,CourseId,StudentId"))
  = TeacherController.include (QString (js "CourseId,StudentId")).
Proof.
  apply teacher_populate_set_of_tokens.
  intros t.
  change (tokens (js "StudentId,CourseId,StudentId"))
    with [js "StudentId"; js "CourseId"; js "StudentId"].
  change (tokens (js "CourseId,StudentId"))
    with [js "CourseId"; js "StudentId"].
  rewrite !elem_of_cons, !elem_of_nil. tauto.
Defined.

Lemma teacher_populate_permutation_witness :
  TeacherController.include (QString (js "StudentId, CourseId"))
  = TeacherController.include (QString (js "CourseId,StudentId")).
Proof.
  apply teacher_populate_permutation. vm_compute. apply Permutation_swap.
Defined.

(** ** Pagination *)

Lemma orDefault_default n d :
  n = NaN ∨ n = Num 0 → orDefault n d = d.
Proof. by intros [-> | ->]. Qed.

Lemma orDefault_parsed z d : z ≠ 0 → orDefault (Num z) d = z.
Proof. intros H. simpl. by destruct (Z.eqb_spec z 0). Qed.

Lemma orDefault_nonzero n d : d ≠ 0 → orDefault n d ≠ 0.
Proof.
  intros Hd. destruct n as [|z]; simpl; [done|].
  by destruct (Z.eqb_spec z 0).
Qed.

Lemma student_findOptions_fields q options :
  StudentController.findOptions q = Ok options →
  opt_limit options = StudentController.limit q
  ∧ opt_offset options
    = (StudentController.page q - 1) * StudentController.limit q
  ∧ opt_order options = [("createdAt", StudentController.sortOrder q)].
Proof.
  unfold StudentController.findOptions.
  destruct (StudentController.include (populate q)); [|done].
  by intros [= <-].
Qed.

Lemma teacher_findOptions_fields q options :
  TeacherController.findOptions q = Ok options →
  opt_limit options = TeacherController.limit q
  ∧ opt_offset options
    = (TeacherController.page q - 1) * TeacherController.limit q
  ∧ opt_order options = [("createdAt", TeacherController.sortOrder q)].
Proof.
  unfold TeacherController.findOptions.
  destruct (TeacherController.include (populate q)); [|done].
  by intros [= <-].
Qed.

(** C4, as stated, fails: [limit=0] parses to the integer 0, a number,
    and the effective limit is 10 all the same. *)
Lemma limit_zero_takes_default :
  ¬ (∀ q, StudentController.limit q
          = match parseInt (limit q) with Num n => n | NaN => 10 end).
Proof.
  intros H. specialize (H (withLimit (QString (js "0")))).
  vm_compute in H. discriminate H.
Qed.

(** C4, amended: within the safe integers, the effective limit is the
    integer [parseInt] reads from [limit], and it is 10 exactly when the
    parameter is absent, is not numeric or parses to 0; the effective page is
    read the same way from [page] with default 1; and when limit, page and
    their product [(page - 1) * limit] are all safe integers, that product is
    the offset of the fetch. *)
Theorem effective_limit_page_offset (q : Query) :
  (limit q = QUndefined ∨ parseInt (limit q) = NaN
   ∨ parseInt (limit q) = Num 0 →
   StudentController.limit q = 10 ∧ TeacherController.limit q = 10)
  ∧ (∀ n, parseInt (limit q) = Num n → n ≠ 0 → safeInteger n →
       StudentController.limit q = n ∧ TeacherController.limit q = n)
  ∧ (page q = QUndefined ∨ parseInt (page q) = NaN
     ∨ parseInt (page q) = Num 0 →
     StudentController.page q = 1 ∧ TeacherController.page q = 1)
  ∧ (∀ n, parseInt (page q) = Num n → n ≠ 0 → safeInteger n →
       StudentController.page q = n ∧ TeacherController.page q = n)
  ∧ (∀ options, StudentController.findOptions q = Ok options →
       safeInteger (StudentController.limit q) →
       safeInteger (StudentController.page q) →
       safeInteger ((StudentController.page q - 1)
                    * StudentController.limit q) →
       opt_limit options = StudentController.limit q
       ∧ opt_offset options
         = (StudentController.page q - 1) * StudentController.limit q)
  ∧ (∀ options, TeacherController.findOptions q = Ok options →
       safeInteger (TeacherController.limit q) →
       safeInteger (TeacherController.page q) →
       safeInteger ((TeacherController.page q - 1)
                    * TeacherController.limit q) →
       opt_limit options = TeacherController.limit q
       ∧ opt_offset options
         = (TeacherController.page q - 1) * TeacherController.limit q).
Proof.
  split; [|split; [|split; [|split; [|split]]]].
  - unfold StudentController.limit, TeacherController.limit.
    intros H. assert (parseInt (limit q) = NaN ∨ parseInt (limit q) = Num 0)
      as H' by (destruct H as [-> | [H | H]]; auto).
    by rewrite !(orDefault_default _ _ H').
  - unfold StudentController.limit, TeacherController.limit.
    intros n -> Hn _. by rewrite !orDefault_parsed.
  - unfold StudentController.page, TeacherController.page.
    intros H. assert (parseInt (page q) = NaN ∨ parseInt (page q) = Num 0)
      as H' by (destruct H as [-> | [H | H]]; auto).
    by rewrite !(orDefault_default _ _ H').
  - unfold StudentController.page, TeacherController.page.
    intros n -> Hn _. by rewrite !orDefault_parsed.
  - intros options H _ _ _.
    by destruct (student_findOptions_fields _ _ H) as (? & ? & _).
  - intros options H _ _ _.
    by destruct (teacher_findOptions_fields _ _ H) as (? & ? & _).
Qed.

(** [limit=25abc] is read as 25, [limit=abc] and [limit=0] give 10, and
    [?limit=25&page=3] fetches from offset 50. *)
Lemma effective_limit_page_offset_witness :
  (StudentController.limit (withLimit (QString (js "25abc"))) = 25
   ∧ TeacherController.limit (withLimit (QString (js "25abc"))) = 25)
  ∧ (StudentController.limit (withLimit (QString (js "abc"))) = 10
     ∧ TeacherController.limit (withLimit (QString (js "abc"))) = 10)
  ∧ (StudentController.limit (withLimit (QString (js "0"))) = 10
     ∧ TeacherController.limit (withLimit (QString (js "0"))) = 10)
  ∧ (∃ options,
       StudentController.findOptions
         (withLimitAndPage (QString (js "25")) (QString (js "3")))
       = Ok options
       ∧ opt_limit options = 25 ∧ opt_offset options = 50).
Proof.
  split; [|split; [|split]].
  - apply (proj1 (proj2 (effective_limit_page_offset
                           (withLimit (QString (js "25abc")))))).
    + reflexivity.
    + lia.
    + unfold safeInteger. lia.
  - apply (proj1 (effective_limit_page_offset
                    (withLimit (QString (js "abc"))))).
    right. left. reflexivity.
  - apply (proj1 (effective_limit_page_offset
                    (withLimit (QString (js "0"))))).
    right. right. reflexivity.
  - eexists. split; [reflexivity|].
    apply (proj1 (proj2 (proj2 (proj2 (proj2
      (effective_limit_page_offset
         (withLimitAndPage (QString (js "25")) (QString (js "3"))))))))).
    + reflexivity.
    + vm_compute. split; discriminate.
    + vm_compute. split; discriminate.
    + vm_compute. split; discriminate.
Defined.

(** C10: a [limit] that parses to 0 gives the effective limit 10 and a
    [page] that parses to 0 gives the effective page 1, as an absent
    parameter does. *)
Theorem zero_limit_page_default (q : Query) :
  (parseInt (limit q) = Num 0 →
   StudentController.limit q = 10 ∧ TeacherController.limit q = 10
   ∧ StudentController.limit q = StudentController.limit noQuery
   ∧ TeacherController.limit q = TeacherController.limit noQuery)
  ∧ (parseInt (page q) = Num 0 →
     StudentController.page q = 1 ∧ TeacherController.page q = 1
     ∧ StudentController.page q = StudentController.page noQuery
     ∧ TeacherController.page q = TeacherController.page noQuery).
Proof.
  unfold StudentController.limit, TeacherController.limit,
    StudentController.page, TeacherController.page.
  split; intros H; rewrite H; done.
Qed.

(** [limit=0] and [page=-0]. *)
Lemma zero_limit_page_default_witness :
  (StudentController.limit (withLimit (QString (js "0"))) = 10
   ∧ TeacherController.limit (withLimit (QString (js "0"))) = 10)
  ∧ (StudentController.page (withPage (QString (js "-0"))) = 1
     ∧ TeacherController.page (withPage (QString (js "-0"))) = 1).
Proof.
  split.
  - destruct (proj1 (zero_limit_page_default (withLimit (QString (js "0"))))
                eq_refl) as (H1 & H2 & _).
    exact (conj H1 H2).
  - destruct (proj2 (zero_limit_page_default (withPage (QString (js "-0"))))
                eq_refl) as (H1 & H2 & _).
    exact (conj H1 H2).
Defined.

(** ** Sort order *)

Lemma strictEquals_true v literal :
  strictEquals v literal = true ↔ v = QString literal.
Proof.
  destruct v as [|s|items|]; simpl; try (split; done).
  rewrite bool_decide_eq_true. split; [by intros ->|by intros [= ->]].
Qed.

(** C5: the direction is [DESC] exactly when [sort] is the string
    [desc], letter for letter, and [ASC] for anything else, an absent
    parameter included; the fetch is ordered by [createdAt] alone. *)
Theorem sort_direction (q : Query) :
  (StudentController.sortOrder q = DESC ↔ sort q = QString (js "desc"))
  ∧ (StudentController.sortOrder q = ASC ↔ sort q ≠ QString (js "desc"))
  ∧ (TeacherController.sortOrder q = DESC ↔ sort q = QString (js "desc"))
  ∧ (TeacherController.sortOrder q = ASC ↔ sort q ≠ QString (js "desc"))
  ∧ (∀ options, StudentController.findOptions q = Ok options →
       opt_order options = [("createdAt", StudentController.sortOrder q)])
  ∧ (∀ options, TeacherController.findOptions q = Ok options →
       opt_order options = [("createdAt", TeacherController.sortOrder q)]).
Proof.
  assert (∀ d : Direction, d = ASC ↔ d ≠ DESC) as Hdir
    by (intros []; split; done).
  assert (StudentController.sortOrder q = DESC ↔ sort q = QString (js "desc"))
    as HS.
  { rewrite <- strictEquals_true. unfold StudentController.sortOrder.
    destruct (strictEquals (sort q) (js "desc")); split; done. }
  assert (TeacherController.sortOrder q = DESC ↔ sort q = QString (js "desc"))
    as HT.
  { rewrite <- strictEquals_true. unfold TeacherController.sortOrder.
    destruct (strictEquals (sort q) (js "desc")); split; done. }
  split; [exact HS|]. split; [by rewrite Hdir, HS|].
  split; [exact HT|]. split; [by rewrite Hdir, HT|].
  split; intros options Ho.
  - by destruct (student_findOptions_fields _ _ Ho) as (_ & _ & ->).
  - by destruct (teacher_findOptions_fields _ _ Ho) as (_ & _ & ->).
Qed.

(** [sort=desc] descends; [sort=DESC], [sort=asc] and no [sort] at all
    ascend. *)
Lemma sort_direction_witness :
  StudentController.sortOrder (withSort (QString (js "desc"))) = DESC
  ∧ TeacherController.sortOrder (withSort (QString (js "DESC"))) = ASC
  ∧ StudentController.sortOrder (withSort (QString (js "asc"))) = ASC
  ∧ TeacherController.sortOrder noQuery = ASC.
Proof.
  repeat apply conj.
  - by apply (proj1 (sort_direction (withSort (QString (js "desc"))))).
  - apply (proj1 (proj2 (proj2 (proj2
      (sort_direction (withSort (QString (js "DESC")))))))).
    vm_compute. discriminate.
  - apply (proj1 (proj2 (sort_direction (withSort (QString (js "asc")))))).
    vm_compute. discriminate.
  - apply (proj1 (proj2 (proj2 (proj2 (sort_direction noQuery))))).
    discriminate.
Defined.

(** ** The page of a list response *)

Lemma ceil_divide_spec (a b : Z) :
  0 < b →
  (Math.ceil (divide a b) - 1) * b < a ≤ Math.ceil (divide a b) * b.
Proof.
  intros Hb. unfold Math.ceil, divide.
  pose proof (Qle_ceiling (inject_Z a / inject_Z b)) as Hle.
  pose proof (Qceiling_lt (inject_Z a / inject_Z b)) as Hlt.
  destruct b as [|b|b]; try lia.
  set (pages := Qceiling _) in *.
  unfold Qle, Qlt, Qdiv, Qmult, Qinv, inject_Z in Hle, Hlt.
  cbn in Hle, Hlt. lia.
Qed.

Lemma findAll_length table options :
  0 ≤ opt_limit options →
  Z.of_nat (length (findAll table options)) ≤ opt_limit options.
Proof.
  intros H. unfold findAll. rewrite length_take. lia.
Qed.

Lemma student_list_response table req meta data :
  (StudentController.getAllStudents table req).1 = res_json (JList meta data) →
  ∃ options,
    StudentController.findOptions (query req) = Ok options
    ∧ data = findAll table options
    ∧ meta = {| totalItems := count table;
                meta_page := StudentController.page (query req);
                totalPages :=
                  Math.ceil (divide (count table)
                               (StudentController.limit (query req))) |}.
Proof.
  unfold StudentController.getAllStudents.
  destruct (StudentController.findOptions (query req)) as [options|m];
    cbn; [|done].
  intros [= <- <-]. by exists options.
Qed.

Lemma teacher_list_response table req meta data :
  (TeacherController.getAllTeachers table req).1 = res_json (JList meta data) →
  ∃ options,
    TeacherController.findOptions (query req) = Ok options
    ∧ data = findAll table options
    ∧ meta = {| totalItems := count table;
                meta_page := TeacherController.page (query req);
                totalPages :=
                  Math.ceil (divide (count table)
                               (TeacherController.limit (query req))) |}.
Proof.
  unfold TeacherController.getAllTeachers.
  destruct (TeacherController.findOptions (query req)) as [options|m];
    cbn; [|done].
  intros [= <- <-]. by exists options.
Qed.

Lemma plainPopulate_readable v :
  plainPopulate v → v = QUndefined ∨ (∃ s, v = QString s).
Proof. intros [->|(s & -> & _)]; [by left|right; by eexists]. Qed.

Lemma student_list_answer table req :
  plainPopulate (populate (query req)) →
  ∃ meta data,
    (StudentController.getAllStudents table req).1
    = res_json (JList meta data).
Proof.
  intros [H|[[|c s] H]]%plainPopulate_readable;
    unfold StudentController.getAllStudents, StudentController.findOptions;
    rewrite H, ?student_include_string; by do 2 eexists.
Qed.

Lemma teacher_list_answer table req :
  plainPopulate (populate (query req)) →
  ∃ meta data,
    (TeacherController.getAllTeachers table req).1
    = res_json (JList meta data).
Proof.
  intros [H|[s H]]%plainPopulate_readable;
    unfold TeacherController.getAllTeachers, TeacherController.findOptions;
    rewrite H, ?teacher_include_string; by do 2 eexists.
Qed.

(** C6: a list response with effective limit above 0 and page at least 1
    has at most [limit] items in [data], [meta.totalItems] is the count of
    the whole table, and [meta.totalPages] is that count divided by the
    limit and rounded up: the least number of pages of [limit] rows that
    hold every row.  And there is such a response: a request whose limit,
    page and offset are safe integers, and whose [populate] is absent or
    repeats no token, is answered with one, by the Student listing and by
    the Teacher listing alike.  The table has at most 2^53 - 1 rows, so that
    its count is a safe integer too. *)
Theorem list_response_page (table : Table) (req : Request) :
  safeInteger (count table) →
  (∀ meta data,
     (StudentController.getAllStudents table req).1
     = res_json (JList meta data) →
     0 < StudentController.limit (query req) →
     1 ≤ StudentController.page (query req) →
     paged table (StudentController.limit (query req)) meta data)
  ∧ (plainPopulate (populate (query req)) →
     0 < StudentController.limit (query req) →
     1 ≤ StudentController.page (query req) →
     safeInteger (StudentController.limit (query req)) →
     safeInteger (StudentController.page (query req)) →
     safeInteger ((StudentController.page (query req) - 1)
                  * StudentController.limit (query req)) →
     ∃ meta data,
       (StudentController.getAllStudents table req).1
       = res_json (JList meta data)
       ∧ paged table (StudentController.limit (query req)) meta data)
  ∧ (∀ meta data,
       (TeacherController.getAllTeachers table req).1
       = res_json (JList meta data) →
       0 < TeacherController.limit (query req) →
       1 ≤ TeacherController.page (query req) →
       paged table (TeacherController.limit (query req)) meta data)
  ∧ (plainPopulate (populate (query req)) →
     0 < TeacherController.limit (query req) →
     1 ≤ TeacherController.page (query req) →
     safeInteger (TeacherController.limit (query req)) →
     safeInteger (TeacherController.page (query req)) →
     safeInteger ((TeacherController.page (query req) - 1)
                  * TeacherController.limit (query req)) →
     ∃ meta data,
       (TeacherController.getAllTeachers table req).1
       = res_json (JList meta data)
       ∧ paged table (TeacherController.limit (query req)) meta data).
Proof.
  assert (∀ meta data,
            (StudentController.getAllStudents table req).1
            = res_json (JList meta data) →
            0 < StudentController.limit (query req) →
            paged table (StudentController.limit (query req)) meta data)
    as Hstudent.
  { intros meta data (options & Ho & -> & ->)%student_list_response Hlimit.
    destruct (student_findOptions_fields _ _ Ho) as (Hl & _).
    unfold paged. cbn [totalItems totalPages]. rewrite <- Hl.
    split; [apply findAll_length; lia|]. split; [done|]. split; [done|].
    apply ceil_divide_spec. lia. }
  assert (∀ meta data,
            (TeacherController.getAllTeachers table req).1
            = res_json (JList meta data) →
            0 < TeacherController.limit (query req) →
            paged table (TeacherController.limit (query req)) meta data)
    as Hteacher.
  { intros meta data (options & Ho & -> & ->)%teacher_list_response Hlimit.
    destruct (teacher_findOptions_fields _ _ Ho) as (Hl & _).
    unfold paged. cbn [totalItems totalPages]. rewrite <- Hl.
    split; [apply findAll_length; lia|]. split; [done|]. split; [done|].
    apply ceil_divide_spec. lia. }
  intros _. split; [|split; [|split]].
  - intros meta data Hrun Hlimit _. by apply Hstudent.
  - intros Hpopulate Hlimit _ _ _ _.
    destruct (student_list_answer table req Hpopulate) as (meta & data & Hrun).
    exists meta, data. split; [done|]. by apply Hstudent.
  - intros meta data Hrun Hlimit _. by apply Hteacher.
  - intros Hpopulate Hlimit _ _ _ _.
    destruct (teacher_list_answer table req Hpopulate) as (meta & data & Hrun).
    exists meta, data. split; [done|]. by apply Hteacher.
Qed.

(** Three rows, [?limit=2&page=2&sort=desc]: from either listing the
    second page holds the one remaining row, the oldest, and there are two
    pages. *)
Lemma list_response_page_witness :
  (StudentController.getAllStudents sampleTable secondPage).1
  = res_json
      (JList {| totalItems := 3; meta_page := 2; totalPages := 2 |}
         [(2, {| createdAt := 10; attributes := ∅ |})])
  ∧ (TeacherController.getAllTeachers sampleTable secondPage).1
    = res_json
        (JList {| totalItems := 3; meta_page := 2; totalPages := 2 |}
           [(2, {| createdAt := 10; attributes := ∅ |})])
  ∧ (∃ meta data,
       (StudentController.getAllStudents sampleTable secondPage).1
       = res_json (JList meta data)
       ∧ paged sampleTable 2 meta data)
  ∧ (∃ meta data,
       (TeacherController.getAllTeachers sampleTable secondPage).1
       = res_json (JList meta data)
       ∧ paged sampleTable 2 meta data).
Proof.
  assert (safeInteger (count sampleTable)) as Hcount
    by (vm_compute; split; discriminate).
  split; [vm_compute; reflexivity|]. split; [vm_compute; reflexivity|].
  split.
  - apply (proj1 (proj2 (list_response_page sampleTable secondPage Hcount))).
    + left. reflexivity.
    + vm_compute. reflexivity.
    + vm_compute. discriminate.
    + vm_compute. split; discriminate.
    + vm_compute. split; discriminate.
    + vm_compute. split; discriminate.
  - apply (proj2 (proj2 (proj2
      (list_response_page sampleTable secondPage Hcount)))).
    + left. reflexivity.
    + vm_compute. reflexivity.
    + vm_compute. discriminate.
    + vm_compute. split; discriminate.
    + vm_compute. split; discriminate.
    + vm_compute. split; discriminate.
Defined.

(** ** Lookup, update and delete by id *)

Lemma findByPk_None (table : Table) id include :
  findByPk table id include = None ↔ table !! id = None.
Proof. unfold findByPk. by rewrite fmap_None. Qed.

Lemma findByPk_Some (table : Table) id include row :
  table !! id = Some row → findByPk table id include = Some (id, row).
Proof. unfold findByPk. by intros ->. Qed.

(** C7: get, update and delete on an id with no entity answer 404 with
    the message [Not found] and leave the table as it was; delete on an id
    that has an entity removes that entity, and no other, and answers with
    the message [Deleted]. *)
Theorem missing_id_not_found (table : Table) (req : Request) :
  (table !! params_id req = None →
   let answer := ({| status := 404; json := JMessage "Not found" |}, table) in
   StudentController.getStudentById table req = answer
   ∧ StudentController.updateStudent table req = answer
   ∧ StudentController.deleteStudent table req = answer
   ∧ TeacherController.getTeacherById table req = answer
   ∧ TeacherController.updateTeacher table req = answer
   ∧ TeacherController.deleteTeacher table req = answer)
  ∧ (is_Some (table !! params_id req) →
     ∃ table',
       StudentController.deleteStudent table req
       = ({| status := 200; json := JMessage "Deleted" |}, table')
       ∧ TeacherController.deleteTeacher table req
         = ({| status := 200; json := JMessage "Deleted" |}, table')
       ∧ table' !! params_id req = None
       ∧ ∀ id, id ≠ params_id req → table' !! id = table !! id).
Proof.
  split.
  - intros Hnone answer.
    unfold StudentController.getStudentById, StudentController.updateStudent,
      StudentController.deleteStudent, TeacherController.getTeacherById,
      TeacherController.updateTeacher, TeacherController.deleteTeacher.
    rewrite !(proj2 (findByPk_None _ _ _) Hnone). by repeat split.
  - intros [row Hrow]. exists (delete (params_id req) table).
    unfold StudentController.deleteStudent, TeacherController.deleteTeacher.
    rewrite (findByPk_Some _ _ _ _ Hrow). cbn.
    split; [done|]. split; [done|].
    split; [apply lookup_delete_eq|].
    intros id Hid. by apply lookup_delete_ne.
Qed.

(** On the three-row table: id 9 is unknown to every operation, and
    deleting id 2 leaves ids 1 and 3. *)
Lemma missing_id_not_found_witness :
  StudentController.updateStudent sampleTable (onId 9)
  = ({| status := 404; json := JMessage "Not found" |}, sampleTable)
  ∧ ∃ table',
      TeacherController.deleteTeacher sampleTable (onId 2)
      = ({| status := 200; json := JMessage "Deleted" |}, table')
      ∧ table' !! 2 = None
      ∧ table' !! 3 = sampleTable !! 3.
Proof.
  split.
  - apply (proj1 (missing_id_not_found sampleTable (onId 9))).
    vm_compute. reflexivity.
  - destruct (proj2 (missing_id_not_found sampleTable (onId 2)))
      as (table' & _ & Hdel & Hgone & Hrest).
    + eexists. vm_compute. reflexivity.
    + exists table'. split; [exact Hdel|]. split; [exact Hgone|].
      apply Hrest. cbn. lia.
Defined.

(** ** Login *)

Lemma findOne_None users where_email :
  AuthController.findOne users where_email = None
  ↔ ∀ user, user ∈ users → AuthController.email user ≠ where_email.
Proof.
  unfold AuthController.findOne. split.
  - intros H user Hin%list_elem_of_In Heq.
    pose proof (find_none _ _ H user Hin) as Hno. cbn in Hno.
    by rewrite Heq, String.eqb_refl in Hno.
  - intros H.
    destruct (find _ users) as [user|] eqn:Hfind; [|done].
    apply find_some in Hfind as [Hin%list_elem_of_In Heq].
    apply String.eqb_eq in Heq. by apply H in Hin.
Qed.

(** C8: [login] answers 401 exactly when no user has the address or the
    hash comparison says no; when the user is found, the comparison says
    yes and signing succeeds, it answers 200 with the token signed for the
    claims [userId] and [email] of that user, under the configured secret,
    expiring after [JWT_EXPIRES_IN], or after [1h] when that is not set;
    and an answer 200 comes about in no other way. *)
Theorem login_outcomes
    (bcrypt_compare : string → string → Result bool)
    (jwt_sign : AuthController.Payload → option string →
                AuthController.SignOptions → Result string)
    (env : AuthController.Env) (users : list AuthController.User)
    (req : AuthController.Credentials) :
  let answer := AuthController.login bcrypt_compare jwt_sign env users req in
  let user := AuthController.findOne users (AuthController.cred_email req) in
  let signed (u : AuthController.User) :=
    jwt_sign
      {| AuthController.userId := AuthController.id u;
         AuthController.payload_email := AuthController.email u |}
      (AuthController.JWT_SECRET env)
      {| AuthController.expiresIn :=
           match AuthController.JWT_EXPIRES_IN env with
           | Some "" | None => "1h"
           | Some expiry => expiry
           end |} in
  (status answer = 401
   ↔ user = None
     ∨ ∃ u, user = Some u
            ∧ bcrypt_compare (AuthController.cred_password req)
                (AuthController.password u) = Ok false)
  ∧ (status answer = 401 →
     answer = {| status := 401; json := JError "Invalid email or password" |})
  ∧ (∀ u token,
       user = Some u →
       bcrypt_compare (AuthController.cred_password req)
         (AuthController.password u) = Ok true →
       signed u = Ok token →
       answer = {| status := 200; json := JToken token |})
  ∧ (status answer = 200 →
     ∃ u token,
       user = Some u
       ∧ bcrypt_compare (AuthController.cred_password req)
           (AuthController.password u) = Ok true
       ∧ signed u = Ok token
       ∧ answer = {| status := 200; json := JToken token |}).
Proof.
  intros answer user signed. subst answer.
  unfold AuthController.login. fold user.
  destruct user as [u|] eqn:Huser; cbn.
  2:{ split; [split; [by left|done]|]. split; [done|].
      split; [done|]. intros [=]. }
  destruct (bcrypt_compare _ _) as [[]|m] eqn:Hcmp; cbn.
  - assert (jwt_sign
              {| AuthController.userId := AuthController.id u;
                 AuthController.payload_email := AuthController.email u |}
              (AuthController.JWT_SECRET env)
              {| AuthController.expiresIn :=
                   orDefaultString (AuthController.JWT_EXPIRES_IN env) "1h" |}
            = signed u) as -> by done.
    destruct (signed u) as [token|m] eqn:Hsign; cbn.
    + split.
      { split; [intros [=]|]. intros [[=]|(u' & [= <-] & H)]. congruence. }
      split; [intros [=]|]. split.
      { intros u' token' [= <-] _ Hs. rewrite Hsign in Hs.
        by injection Hs as ->. }
      intros _. exists u, token. by rewrite Hcmp.
    + split.
      { split; [intros [=]|]. intros [[=]|(u' & [= <-] & H)]. congruence. }
      split; [intros [=]|]. split; [|intros [=]].
      intros u' token' [= <-] _ Hs. by rewrite Hsign in Hs.
  - split.
    { split; [|done]. intros _. right. exists u. by rewrite Hcmp. }
    split; [done|]. split; [|intros [=]].
    intros u' token' [= <-]. by rewrite Hcmp.
  - split.
    { split; [intros [=]|]. intros [[=]|(u' & [= <-] & H)]. congruence. }
    split; [intros [=]|]. split; [|intros [=]].
    intros u' token' [= <-]. by rewrite Hcmp.
Qed.

(** Ada signs in with her password and gets a token for her address that
    expires after [1h]; with a wrong password, or as a stranger, the answer
    is 401. *)
Lemma login_outcomes_witness :
  AuthController.login plainCompare tagSign sampleEnv sampleUsers
    {| AuthController.cred_email := "ada@school.test";
       AuthController.cred_password := "s3cret" |}
  = {| status := 200; json := JToken "ada@school.test/1h/k" |}
  ∧ status (AuthController.login plainCompare tagSign sampleEnv sampleUsers
              {| AuthController.cred_email := "ada@school.test";
                 AuthController.cred_password := "guess" |}) = 401
  ∧ status (AuthController.login plainCompare tagSign sampleEnv sampleUsers
              {| AuthController.cred_email := "eve@school.test";
                 AuthController.cred_password := "s3cret" |}) = 401.
Proof.
  split; [|split].
  - eapply (proj1 (proj2 (proj2
      (login_outcomes plainCompare tagSign sampleEnv sampleUsers
         {| AuthController.cred_email := "ada@school.test";
            AuthController.cred_password := "s3cret" |})))).
    + reflexivity.
    + reflexivity.
    + reflexivity.
  - apply (proj1 (login_outcomes plainCompare tagSign sampleEnv sampleUsers
         {| AuthController.cred_email := "ada@school.test";
            AuthController.cred_password := "guess" |})).
    right. eexists. split; reflexivity.
  - apply (proj1 (login_outcomes plainCompare tagSign sampleEnv sampleUsers
         {| AuthController.cred_email := "eve@school.test";
            AuthController.cred_password := "s3cret" |})).
    left. reflexivity.
Defined.

(** ** Further properties of the list handlers *)

#[local] Instance precedes_transitive d : Transitive (precedes d).
Proof. intros x y z. destruct d; simpl; lia. Qed.

#[local] Instance precedes_total d : Total (precedes d).
Proof. intros x y. destruct d; simpl; lia. Qed.

Lemma findAll_sorted table options d :
  opt_order options = [("createdAt", d)] →
  StronglySorted (precedes d) (findAll table options).
Proof.
  intros Horder. unfold findAll, orderBy. rewrite Horder. cbn.
  set (rows := merge_sort _ _).
  assert (StronglySorted (precedes d) rows) as Hrows
    by (apply StronglySorted_merge_sort; apply _).
  rewrite <- (take_drop (Z.to_nat (opt_offset options)) rows) in Hrows.
  apply StronglySorted_app_1_r in Hrows.
  set (rest := drop _ rows) in *.
  rewrite <- (take_drop (Z.to_nat (opt_limit options)) rest) in Hrows.
  by apply StronglySorted_app_1_l in Hrows.
Qed.

Lemma findAll_rows table options d id row :
  opt_order options = [("createdAt", d)] →
  (id, row) ∈ findAll table options → table !! id = Some row.
Proof.
  intros Horder. unfold findAll, orderBy. rewrite Horder. cbn.
  intros Hin. apply subseteq_take, subseteq_drop in Hin.
  rewrite merge_sort_Permutation in Hin.
  by apply elem_of_map_to_list in Hin.
Qed.

(** A list request whose limit, page and offset are safe integers, with
    limit above 0 and page at least 1, and whose [populate] is absent or
    repeats no token, is answered with rows of the table, each under its own
    key, in the order of their creation times: rising for [ASC], falling
    for [DESC]. *)
Theorem list_response_sorted (table : Table) (req : Request) :
  plainPopulate (populate (query req)) →
  (0 < StudentController.limit (query req) →
   1 ≤ StudentController.page (query req) →
   safeInteger (StudentController.limit (query req)) →
   safeInteger (StudentController.page (query req)) →
   safeInteger ((StudentController.page (query req) - 1)
                * StudentController.limit (query req)) →
   ∃ meta data,
     (StudentController.getAllStudents table req).1
     = res_json (JList meta data)
     ∧ StronglySorted
         (precedes (StudentController.sortOrder (query req))) data
     ∧ ∀ id row, (id, row) ∈ data → table !! id = Some row)
  ∧ (0 < TeacherController.limit (query req) →
     1 ≤ TeacherController.page (query req) →
     safeInteger (TeacherController.limit (query req)) →
     safeInteger (TeacherController.page (query req)) →
     safeInteger ((TeacherController.page (query req) - 1)
                  * TeacherController.limit (query req)) →
     ∃ meta data,
       (TeacherController.getAllTeachers table req).1
       = res_json (JList meta data)
       ∧ StronglySorted
           (precedes (TeacherController.sortOrder (query req))) data
       ∧ ∀ id row, (id, row) ∈ data → table !! id = Some row).
Proof.
  intros Hpopulate. split; intros _ _ _ _ _.
  - destruct (student_list_answer table req Hpopulate) as (meta & data & Hrun).
    exists meta, data. split; [done|].
    apply student_list_response in Hrun as (options & Ho & -> & _).
    destruct (student_findOptions_fields _ _ Ho) as (_ & _ & Horder).
    split; [by apply findAll_sorted|].
    intros id row.
    by apply findAll_rows with (d := StudentController.sortOrder (query req)).
  - destruct (teacher_list_answer table req Hpopulate) as (meta & data & Hrun).
    exists meta, data. split; [done|].
    apply teacher_list_response in Hrun as (options & Ho & -> & _).
    destruct (teacher_findOptions_fields _ _ Ho) as (_ & _ & Horder).
    split; [by apply findAll_sorted|].
    intros id row.
    by apply findAll_rows with (d := TeacherController.sortOrder (query req)).
Qed.

(** The three-row table read whole: [?limit=3&sort=desc] gives the rows
    created at 30, 20, 10 in that order, [?limit=3&sort=asc] the rows
    created at 10, 20, 30. *)
Lemma list_response_sorted_witness :
  StronglySorted (precedes DESC)
    [(1, {| createdAt := 30; attributes := ∅ |});
     (3, {| createdAt := 20; attributes := ∅ |});
     (2, {| createdAt := 10; attributes := ∅ |})]
  ∧ dataOf (StudentController.getAllStudents sampleTable newestFirst)
    = [(1, {| createdAt := 30; attributes := ∅ |});
       (3, {| createdAt := 20; attributes := ∅ |});
       (2, {| createdAt := 10; attributes := ∅ |})]
  ∧ StronglySorted (precedes ASC)
      [(2, {| createdAt := 10; attributes := ∅ |});
       (3, {| createdAt := 20; attributes := ∅ |});
       (1, {| createdAt := 30; attributes := ∅ |})]
  ∧ dataOf (TeacherController.getAllTeachers sampleTable oldestFirst)
    = [(2, {| createdAt := 10; attributes := ∅ |});
       (3, {| createdAt := 20; attributes := ∅ |});
       (1, {| createdAt := 30; attributes := ∅ |})].
Proof.
  split; [|split; [vm_compute; reflexivity|split; [|vm_compute; reflexivity]]].
  - destruct (proj1 (list_response_sorted sampleTable newestFirst
                       (or_introl eq_refl)))
      as (meta & data & Hrun & Hsorted & _).
    + vm_compute. reflexivity.
    + vm_compute. discriminate.
    + vm_compute. split; discriminate.
    + vm_compute. split; discriminate.
    + vm_compute. split; discriminate.
    + vm_compute in Hrun. injection Hrun as _ <-. exact Hsorted.
  - assert (plainPopulate (populate (query oldestFirst))) as Hplain.
    { right. eexists. split; [reflexivity|].
      vm_compute. apply NoDup_singleton. }
    destruct (proj2 (list_response_sorted sampleTable oldestFirst Hplain))
      as (meta & data & Hrun & Hsorted & _).
    + vm_compute. reflexivity.
    + vm_compute. discriminate.
    + vm_compute. split; discriminate.
    + vm_compute. split; discriminate.
    + vm_compute. split; discriminate.
    + vm_compute in Hrun. injection Hrun as _ <-. exact Hsorted.
Defined.

(** A [populate] that arrives as an array or as an object (a repeated or
    bracketed parameter) has no [split] method: both list handlers answer
    500 with the message of the exception. *)
Theorem populate_not_a_string (table : Table) (req : Request) :
  (∃ items, populate (query req) = QArray items)
  ∨ populate (query req) = QObject →
  StudentController.getAllStudents table req
  = ({| status := 500; json := JError "populate.split is not a function" |},
     table)
  ∧ TeacherController.getAllTeachers table req
    = ({| status := 500; json := JError "populate.split is not a function" |},
       table).
Proof.
  unfold StudentController.getAllStudents, TeacherController.getAllTeachers,
    StudentController.findOptions, TeacherController.findOptions.
  by intros [[items ->] | ->].
Qed.

(** [?populate=CourseId&populate=StudentId] *)
Lemma populate_not_a_string_witness :
  (TeacherController.getAllTeachers sampleTable
     {| query := withPopulate
                   (QArray [QString (js "CourseId"); QString (js "StudentId")]);
        params_id := 0; body := ∅ |}).1
  = {| status := 500; json := JError "populate.split is not a function" |}.
Proof.
  destruct (populate_not_a_string sampleTable
              {| query := withPopulate
                   (QArray [QString (js "CourseId"); QString (js "StudentId")]);
                 params_id := 0; body := ∅ |}) as [_ Hteacher].
  - left. eexists. reflexivity.
  - rewrite Hteacher. reflexivity.
Defined.

(** Without a [CourseId] token a Student listing nests one Teacher node
    under Course for every occurrence of the [TeacherId] token. *)
Theorem student_teacher_per_token (s : jsstring) :
  s ≠ [] →
  js "CourseId" ∉ tokens s →
  StudentController.include (QString s)
  = Ok [mkInclude db.Course
          (Some (replicate
                   (length (filter (λ t, t = js "TeacherId") (tokens s)))
                   (mkInclude db.Teacher None)))].
Proof.
  intros Hs Hno. destruct s as [|c s]; [done|].
  rewrite student_include_string. do 3 f_equal.
  assert (∀ relations nested,
            js "CourseId" ∉ relations →
            foldl studentNested nested relations
            = nested ++ replicate
                (length (filter (λ t, t = js "TeacherId") relations))
                (mkInclude db.Teacher None)) as Hfold.
  { induction relations as [|rel relations IH]; intros nested Hrel.
    - by rewrite app_nil_r.
    - apply not_elem_of_cons in Hrel as [Hne Hrel].
      cbn [foldl]. rewrite IH by done. unfold studentNested.
      rewrite bool_decide_eq_false_2 by done.
      rewrite filter_cons. destruct (decide (rel = js "TeacherId")) as [->|Hrel'].
      + rewrite bool_decide_eq_true_2 by done. by rewrite <- app_assoc.
      + rewrite bool_decide_eq_false_2 by done. by rewrite app_nil_r. }
  by rewrite Hfold.
Qed.

Lemma student_teacher_per_token_witness :
  StudentController.include (QString (js "TeacherId,x,TeacherId"))
  = Ok [mkInclude db.Course
          (Some [mkInclude db.Teacher None; mkInclude db.Teacher None])].
Proof.
  rewrite (student_teacher_per_token (js "TeacherId,x,TeacherId")).
  - reflexivity.
  - vm_compute. discriminate.
  - vm_compute. intros H.
    repeat (apply elem_of_cons in H as [H|H]; [discriminate H|]).
    by apply elem_of_nil in H.
Defined.

(** ** Update *)



(** ** Decimal numerals in the query *)

Example numeral_writes_decimal :
  numeral 0 = js "0" ∧ numeral 7 = js "7" ∧ numeral 25 = js "25"
  ∧ numeral 1000 = js "1000".
Proof. repeat split. Qed.

Lemma digit_cases (d : Z) :
  0 ≤ d < 10 →
  d = 0 ∨ d = 1 ∨ d = 2 ∨ d = 3 ∨ d = 4 ∨ d = 5 ∨ d = 6 ∨ d = 7 ∨ d = 8
  ∨ d = 9.
Proof. lia. Qed.

Lemma radixDigit_digit (d : Z) :
  0 ≤ d < 10 → radixDigit 10 (Z.to_N (48 + d)) = Some d.
Proof.
  intros H. destruct (digit_cases d H) as [->|[->|[->|[->|[->|[->|[->|[->|[->| ->]]]]]]]]];
    reflexivity.
Qed.

Lemma parseDigits_digitsOf fuel : ∀ n acc,
  0 ≤ n → (Z.to_nat n < fuel)%nat →
  parseDigits 10 (digitsOf fuel n acc) None = parseDigits 10 acc (Some n).
Proof.
  induction fuel as [|fuel IH]; intros n acc Hn Hfuel; [lia|].
  cbn [digitsOf].
  pose proof (Z.mod_pos_bound n 10 ltac:(lia)) as Hd.
  pose proof (Z.div_mod n 10 ltac:(lia)) as Hdm.
  destruct (Z.ltb_spec n 10) as [Hlt|Hge].
  - cbn [parseDigits]. rewrite (radixDigit_digit _ Hd).
    change (default 0 None) with 0.
    f_equal. f_equal. rewrite Z.mod_small by lia. lia.
  - rewrite IH.
    + cbn [parseDigits]. rewrite (radixDigit_digit _ Hd).
      change (default 0 (Some (n / 10))) with (n / 10).
      f_equal. f_equal. lia.
    + apply Z.div_pos; lia.
    + assert (n / 10 < n) by (apply Z.div_lt; lia). lia.
Qed.

Lemma digitsOf_digits fuel : ∀ n acc,
  0 ≤ n → Forall isDigit acc → Forall isDigit (digitsOf fuel n acc).
Proof.
  induction fuel as [|fuel IH]; intros n acc Hn Hacc; [done|].
  cbn [digitsOf].
  pose proof (Z.mod_pos_bound n 10 ltac:(lia)) as Hd.
  assert (Forall isDigit (Z.to_N (48 + n mod 10) :: acc)) as Hacc'
    by (constructor; [unfold isDigit; lia|done]).
  destruct (n <? 10); [done|]. apply IH; [|done].
  apply Z.div_pos; lia.
Qed.

Lemma digitsOf_nonempty fuel n acc : digitsOf (S fuel) n acc ≠ [].
Proof.
  cbn [digitsOf]. destruct (n <? 10); [done|].
  generalize (n / 10). generalize (Z.to_N (48 + n mod 10)).
  clear n. revert acc. induction fuel as [|fuel IH]; intros acc c n; [done|].
  cbn [digitsOf]. destruct (n <? 10); [done|]. apply IH.
Qed.

Lemma isDigit_cases (c : N) :
  isDigit c →
  (c = 48 ∨ c = 49 ∨ c = 50 ∨ c = 51 ∨ c = 52 ∨ c = 53 ∨ c = 54 ∨ c = 55
   ∨ c = 56 ∨ c = 57)%N.
Proof. unfold isDigit. lia. Qed.

(** On a non-empty run of decimal digits [parseInt] reads the run: no
    white space to skip, no sign, no hexadecimal prefix. *)
Lemma parseIntString_digits (s : jsstring) :
  s ≠ [] → Forall isDigit s →
  parseIntString s
  = match parseDigits 10 s None with Some m => Num m | None => NaN end.
Proof.
  intros Hs Hdigits. destruct s as [|c r]; [done|].
  apply Forall_cons in Hdigits as [Hc Hr].
  assert (∀ m : option Z,
            match m with Some z => Num (1 * z) | None => NaN end
            = match m with Some z => Num z | None => NaN end) as Hone
    by (intros [z|]; [by destruct z|done]).
  destruct (isDigit_cases c Hc) as [->|[->|[->|[->|[->|[->|[->|[->|[->| ->]]]]]]]]];
    try (unfold parseIntString; cbn [trimStart]; apply Hone).
  destruct r as [|x r]; [reflexivity|].
  apply Forall_cons in Hr as [Hx Hr].
  destruct (isDigit_cases x Hx) as [->|[->|[->|[->|[->|[->|[->|[->|[->| ->]]]]]]]]];
    unfold parseIntString; cbn [trimStart]; apply Hone.
Qed.

Lemma parseInt_numeral (n : Z) :
  0 ≤ n → parseInt (QString (numeral n)) = Num n.
Proof.
  intros Hn. unfold parseInt, numeral. cbn [ToString].
  rewrite parseIntString_digits.
  - rewrite parseDigits_digitsOf by lia. reflexivity.
  - apply digitsOf_nonempty.
  - by apply digitsOf_digits.
Qed.

(** A positive [limit] or [page] written in decimal, up to the largest
    safe integer, is the effective limit or page; the numeral [0] gives the
    default. *)
Theorem decimal_limit_and_page (q : Query) (n : Z) :
  0 ≤ n → safeInteger n →
  StudentController.limit (setLimit q (QString (numeral n)))
  = (if decide (n = 0) then 10 else n)
  ∧ TeacherController.limit (setLimit q (QString (numeral n)))
    = (if decide (n = 0) then 10 else n)
  ∧ StudentController.page (setPage q (QString (numeral n)))
    = (if decide (n = 0) then 1 else n)
  ∧ TeacherController.page (setPage q (QString (numeral n)))
    = (if decide (n = 0) then 1 else n).
Proof.
  intros Hn _.
  unfold StudentController.limit, TeacherController.limit,
    StudentController.page, TeacherController.page.
  cbn [setLimit setPage limit page]. rewrite (parseInt_numeral n Hn).
  cbn [orDefault]. destruct (Z.eqb_spec n 0); by destruct (decide (n = 0)).
Qed.

Lemma decimal_limit_and_page_witness :
  StudentController.limit (setLimit noQuery (QString (numeral 250))) = 250
  ∧ TeacherController.page (setPage noQuery (QString (numeral 0))) = 1
  ∧ TeacherController.limit
      (setLimit noQuery (QString (numeral 9007199254740991)))
    = 9007199254740991.
Proof.
  split; [|split].
  - apply (decimal_limit_and_page noQuery 250); [lia|].
    vm_compute. split; discriminate.
  - apply (decimal_limit_and_page noQuery 0); [lia|].
    vm_compute. split; discriminate.
  - apply (decimal_limit_and_page noQuery 9007199254740991); [lia|].
    vm_compute. split; discriminate.
Defined.

(** The effective limit and the effective page are never 0, whatever the
    query holds: the division behind [totalPages] never has a zero divisor,
    and page 0 cannot be asked for. *)
Theorem limit_and_page_never_zero (q : Query) :
  StudentController.limit q ≠ 0 ∧ StudentController.page q ≠ 0
  ∧ TeacherController.limit q ≠ 0 ∧ TeacherController.page q ≠ 0.
Proof.
  unfold StudentController.limit, TeacherController.limit,
    StudentController.page, TeacherController.page.
  repeat split; by apply orDefault_nonzero.
Qed.

(** ** Paging through a table *)

Lemma student_include_readable populate :
  populate = QUndefined ∨ (∃ s, populate = QString s) →
  ∃ include, StudentController.include populate = Ok include.
Proof.
  intros [->|[[|c s] ->]]; [by eexists..|].
  rewrite student_include_string. by eexists.
Qed.

Lemma teacher_include_readable populate :
  populate = QUndefined ∨ (∃ s, populate = QString s) →
  ∃ include, TeacherController.include populate = Ok include.
Proof.
  intros [->|[s ->]]; [by eexists|].
  rewrite teacher_include_string. by eexists.
Qed.

Lemma student_data table req :
  populate (query req) = QUndefined ∨ (∃ s, populate (query req) = QString s) →
  dataOf (StudentController.getAllStudents table req)
  = take (Z.to_nat (StudentController.limit (query req)))
      (drop (Z.to_nat ((StudentController.page (query req) - 1)
                       * StudentController.limit (query req)))
         (listing (StudentController.sortOrder (query req)) table)).
Proof.
  intros [include Hinclude]%student_include_readable.
  unfold StudentController.getAllStudents, StudentController.findOptions.
  by rewrite Hinclude.
Qed.

Lemma teacher_data table req :
  populate (query req) = QUndefined ∨ (∃ s, populate (query req) = QString s) →
  dataOf (TeacherController.getAllTeachers table req)
  = take (Z.to_nat (TeacherController.limit (query req)))
      (drop (Z.to_nat ((TeacherController.page (query req) - 1)
                       * TeacherController.limit (query req)))
         (listing (TeacherController.sortOrder (query req)) table)).
Proof.
  intros [include Hinclude]%teacher_include_readable.
  unfold TeacherController.getAllTeachers, TeacherController.findOptions.
  by rewrite Hinclude.
Qed.

Lemma listing_Permutation d table : listing d table ≡ₚ map_to_list table.
Proof. unfold listing, orderBy. cbn. apply merge_sort_Permutation. Qed.

Lemma listing_length d table :
  Z.of_nat (length (listing d table)) = count table.
Proof.
  unfold count. by rewrite listing_Permutation, length_map_to_list.
Qed.

Lemma page_length {A} (l : list A) (L P : Z) :
  0 < L → 1 ≤ P →
  Z.of_nat (length (take (Z.to_nat L) (drop (Z.to_nat ((P - 1) * L)) l)))
  = Z.min L (Z.max 0 (Z.of_nat (length l) - (P - 1) * L)).
Proof.
  intros HL HP. rewrite length_take, length_drop.
  assert (0 ≤ (P - 1) * L) by nia. lia.
Qed.

(** The size of a page.  For a request whose limit, page and offset are
    safe integers, with limit above 0 and page at least 1, and whose
    [populate] is absent or repeats no token, a list answer holds [limit]
    rows, or what is left of the table after the earlier pages when that is
    less: every page before the last is full, and a page past the end of the
    table is empty. *)
Theorem page_size (table : Table) (req : Request) :
  plainPopulate (populate (query req)) →
  (0 < StudentController.limit (query req) →
   1 ≤ StudentController.page (query req) →
   safeInteger (StudentController.limit (query req)) →
   safeInteger (StudentController.page (query req)) →
   safeInteger ((StudentController.page (query req) - 1)
                * StudentController.limit (query req)) →
   let rows := dataOf (StudentController.getAllStudents table req) in
   let skipped := (StudentController.page (query req) - 1)
                  * StudentController.limit (query req) in
   Z.of_nat (length rows)
   = Z.min (StudentController.limit (query req))
       (Z.max 0 (count table - skipped))
   ∧ (skipped + StudentController.limit (query req) ≤ count table →
      Z.of_nat (length rows) = StudentController.limit (query req))
   ∧ (count table ≤ skipped → rows = []))
  ∧ (0 < TeacherController.limit (query req) →
     1 ≤ TeacherController.page (query req) →
     safeInteger (TeacherController.limit (query req)) →
     safeInteger (TeacherController.page (query req)) →
     safeInteger ((TeacherController.page (query req) - 1)
                  * TeacherController.limit (query req)) →
     let rows := dataOf (TeacherController.getAllTeachers table req) in
     let skipped := (TeacherController.page (query req) - 1)
                    * TeacherController.limit (query req) in
     Z.of_nat (length rows)
     = Z.min (TeacherController.limit (query req))
         (Z.max 0 (count table - skipped))
     ∧ (skipped + TeacherController.limit (query req) ≤ count table →
        Z.of_nat (length rows) = TeacherController.limit (query req))
     ∧ (count table ≤ skipped → rows = [])).
Proof.
  intros Hpopulate%plainPopulate_readable.
  split; intros HL HP _ _ _ rows skipped.
  - assert (Z.of_nat (length rows)
            = Z.min (StudentController.limit (query req))
                (Z.max 0 (count table - skipped))) as Hlen.
    { subst rows skipped. rewrite student_data by done.
      rewrite page_length by done. by rewrite listing_length. }
    split; [done|]. split; [lia|].
    intros Hpast. apply length_zero_iff_nil. lia.
  - assert (Z.of_nat (length rows)
            = Z.min (TeacherController.limit (query req))
                (Z.max 0 (count table - skipped))) as Hlen.
    { subst rows skipped. rewrite teacher_data by done.
      rewrite page_length by done. by rewrite listing_length. }
    split; [done|]. split; [lia|].
    intros Hpast. apply length_zero_iff_nil. lia.
Qed.

(** Three rows, limit 2: page 2 holds the one row that is left, from
    either listing. *)
Lemma page_size_witness :
  Z.of_nat (length (dataOf (StudentController.getAllStudents
                              sampleTable secondPage)))
  = Z.min 2 (Z.max 0 (3 - 2))
  ∧ Z.of_nat (length (dataOf (TeacherController.getAllTeachers
                                sampleTable secondPage)))
    = Z.min 2 (Z.max 0 (3 - 2)).
Proof.
  split.
  - destruct (proj1 (page_size sampleTable secondPage (or_introl eq_refl)))
      as [Hlen _].
    + vm_compute. reflexivity.
    + vm_compute. discriminate.
    + vm_compute. split; discriminate.
    + vm_compute. split; discriminate.
    + vm_compute. split; discriminate.
    + exact Hlen.
  - destruct (proj2 (page_size sampleTable secondPage (or_introl eq_refl)))
      as [Hlen _].
    + vm_compute. reflexivity.
    + vm_compute. discriminate.
    + vm_compute. split; discriminate.
    + vm_compute. split; discriminate.
    + vm_compute. split; discriminate.
    + exact Hlen.
Defined.

Lemma sampleTable_distinctTimes : distinctTimes sampleTable.
Proof.
  assert (∀ i row, sampleTable !! i = Some row →
            (i = 1 ∧ createdAt row = 30) ∨ (i = 2 ∧ createdAt row = 10)
            ∨ (i = 3 ∧ createdAt row = 20)) as Hrows.
  { intros i row. unfold sampleTable.
    rewrite !list_to_map_cons, list_to_map_nil. cbn [fst snd].
    rewrite !lookup_insert, lookup_empty.
    repeat case_decide; intros [= <-]; cbn; auto. }
  intros i j row row' Hi%Hrows Hj%Hrows. lia.
Defined.

Lemma concat_pages {A} (l : list A) (L n : nat) :
  concat ((λ p, take L (drop ((p - 1) * L) l)) <$> seq 1 n) = take (n * L) l.
Proof.
  induction n as [|n IH]; [done|].
  rewrite seq_S, fmap_app, concat_app, IH. cbn [fmap list_fmap concat].
  rewrite app_nil_r.
  replace ((1 + n - 1) * L)%nat with (n * L)%nat by lia.
  rewrite take_take_drop. f_equal. lia.
Qed.

Lemma student_onPage table req (p : nat) :
  populate (query req) = QUndefined ∨ (∃ s, populate (query req) = QString s) →
  (1 ≤ p)%nat →
  dataOf (StudentController.getAllStudents table (onPage req (Z.of_nat p)))
  = take (Z.to_nat (StudentController.limit (query req)))
      (drop ((p - 1) * Z.to_nat (StudentController.limit (query req)))
         (listing (StudentController.sortOrder (query req)) table)).
Proof.
  intros Hpopulate Hp. rewrite student_data by done.
  unfold StudentController.page, StudentController.limit,
    StudentController.sortOrder.
  cbn [onPage query setPage page limit sort].
  rewrite parseInt_numeral by lia. cbn [orDefault].
  destruct (Z.eqb_spec (Z.of_nat p) 0); [lia|].
  do 2 f_equal.
  destruct (Z.le_gt_cases 0 (orDefault (parseInt (limit (query req))) 10)).
  - rewrite Z2Nat.inj_mul by lia. lia.
  - rewrite (Z2Nat.nonpos (orDefault _ _)) by lia.
    rewrite Z2Nat.nonpos by nia. lia.
Qed.

Lemma teacher_onPage table req (p : nat) :
  populate (query req) = QUndefined ∨ (∃ s, populate (query req) = QString s) →
  (1 ≤ p)%nat →
  dataOf (TeacherController.getAllTeachers table (onPage req (Z.of_nat p)))
  = take (Z.to_nat (TeacherController.limit (query req)))
      (drop ((p - 1) * Z.to_nat (TeacherController.limit (query req)))
         (listing (TeacherController.sortOrder (query req)) table)).
Proof.
  intros Hpopulate Hp. rewrite teacher_data by done.
  unfold TeacherController.page, TeacherController.limit,
    TeacherController.sortOrder.
  cbn [onPage query setPage page limit sort].
  rewrite parseInt_numeral by lia. cbn [orDefault].
  destruct (Z.eqb_spec (Z.of_nat p) 0); [lia|].
  do 2 f_equal.
  destruct (Z.le_gt_cases 0 (orDefault (parseInt (limit (query req))) 10)).
  - rewrite Z2Nat.inj_mul by lia. lia.
  - rewrite (Z2Nat.nonpos (orDefault _ _)) by lia.
    rewrite Z2Nat.nonpos by nia. lia.
Qed.

(** Paging visits every row once.  On a table of at most 2^53 - 1 rows, no
    two of them created at the same time, with a limit above 0 that is a
    safe integer and a [populate] that is absent or repeats no token: the
    pages [1 .. totalPages] of a listing, asked for one after the other with
    the same [limit], [sort] and [populate], put end to end are the whole
    table in listing order, so no row is missing and none comes twice. *)
Theorem pages_cover_table (table : Table) (req : Request) :
  plainPopulate (populate (query req)) →
  distinctTimes table →
  safeInteger (count table) →
  (0 < StudentController.limit (query req) →
   safeInteger (StudentController.limit (query req)) →
   let totalPages :=
     Math.ceil (divide (count table) (StudentController.limit (query req))) in
   let pages :=
     (λ p, dataOf (StudentController.getAllStudents table
                     (onPage req (Z.of_nat p))))
     <$> seq 1 (Z.to_nat totalPages) in
   concat pages = listing (StudentController.sortOrder (query req)) table
   ∧ concat pages ≡ₚ map_to_list table)
  ∧ (0 < TeacherController.limit (query req) →
     safeInteger (TeacherController.limit (query req)) →
     let totalPages :=
       Math.ceil (divide (count table) (TeacherController.limit (query req))) in
     let pages :=
       (λ p, dataOf (TeacherController.getAllTeachers table
                       (onPage req (Z.of_nat p))))
       <$> seq 1 (Z.to_nat totalPages) in
     concat pages = listing (TeacherController.sortOrder (query req)) table
     ∧ concat pages ≡ₚ map_to_list table).
Proof.
  intros Hpopulate%plainPopulate_readable _ _.
  split; intros HL _ totalPages pages.
  - assert (concat pages
            = listing (StudentController.sortOrder (query req)) table) as Hall.
    { subst pages.
      rewrite (list_fmap_ext _
        (λ p, take (Z.to_nat (StudentController.limit (query req)))
                (drop ((p - 1) * Z.to_nat (StudentController.limit (query req)))
                   (listing (StudentController.sortOrder (query req)) table)))).
      - rewrite concat_pages. apply take_ge.
        pose proof (ceil_divide_spec (count table) _ HL) as [_ Hceil].
        fold totalPages in Hceil.
        pose proof (listing_length
                      (StudentController.sortOrder (query req)) table).
        nia.
      - intros i p Hp%list_elem_of_lookup_2%elem_of_seq.
        apply student_onPage; [done|lia]. }
    split; [done|]. rewrite Hall. apply listing_Permutation.
  - assert (concat pages
            = listing (TeacherController.sortOrder (query req)) table) as Hall.
    { subst pages.
      rewrite (list_fmap_ext _
        (λ p, take (Z.to_nat (TeacherController.limit (query req)))
                (drop ((p - 1) * Z.to_nat (TeacherController.limit (query req)))
                   (listing (TeacherController.sortOrder (query req)) table)))).
      - rewrite concat_pages. apply take_ge.
        pose proof (ceil_divide_spec (count table) _ HL) as [_ Hceil].
        fold totalPages in Hceil.
        pose proof (listing_length
                      (TeacherController.sortOrder (query req)) table).
        nia.
      - intros i p Hp%list_elem_of_lookup_2%elem_of_seq.
        apply teacher_onPage; [done|lia]. }
    split; [done|]. rewrite Hall. apply listing_Permutation.
Qed.

(** Three rows read two at a time, newest first: pages 1 and 2 together
    are rows 1, 3, 2, from either listing. *)
Lemma pages_cover_table_witness :
  dataOf (StudentController.getAllStudents sampleTable (onPage secondPage 1))
  ++ dataOf (StudentController.getAllStudents sampleTable (onPage secondPage 2))
  = [(1, {| createdAt := 30; attributes := ∅ |});
     (3, {| createdAt := 20; attributes := ∅ |});
     (2, {| createdAt := 10; attributes := ∅ |})]
  ∧ dataOf (TeacherController.getAllTeachers sampleTable (onPage secondPage 1))
    ++ dataOf (TeacherController.getAllTeachers sampleTable
                 (onPage secondPage 2))
    = [(1, {| createdAt := 30; attributes := ∅ |});
       (3, {| createdAt := 20; attributes := ∅ |});
       (2, {| createdAt := 10; attributes := ∅ |})].
Proof.
  assert (safeInteger (count sampleTable)) as Hcount
    by (vm_compute; split; discriminate).
  split.
  - destruct (proj1 (pages_cover_table sampleTable secondPage
                       (or_introl eq_refl) sampleTable_distinctTimes Hcount))
      as [Hall _].
    + vm_compute. reflexivity.
    + vm_compute. split; discriminate.
    + vm_compute in Hall. vm_compute. exact Hall.
  - destruct (proj2 (pages_cover_table sampleTable secondPage
                       (or_introl eq_refl) sampleTable_distinctTimes Hcount))
      as [Hall _].
    + vm_compute. reflexivity.
    + vm_compute. split; discriminate.
    + vm_compute in Hall. vm_compute. exact Hall.
Defined.

(** After a delete the id is gone for good: a get, an update and a second
    delete on it all answer 404 and change nothing, and the table counts one
    row less. *)
Theorem delete_then_missing (table : Table) (req req' : Request) :
  is_Some (table !! params_id req) →
  params_id req' = params_id req →
  let deleted := (StudentController.deleteStudent table req).2 in
  let deleted' := (TeacherController.deleteTeacher table req).2 in
  let answer t := ({| status := 404; json := JMessage "Not found" |}, t) in
  StudentController.getStudentById deleted req' = answer deleted
  ∧ StudentController.updateStudent deleted req' = answer deleted
  ∧ StudentController.deleteStudent deleted req' = answer deleted
  ∧ TeacherController.getTeacherById deleted' req' = answer deleted'
  ∧ TeacherController.updateTeacher deleted' req' = answer deleted'
  ∧ TeacherController.deleteTeacher deleted' req' = answer deleted'
  ∧ count deleted = count table - 1
  ∧ count deleted' = count table - 1.
Proof.
  intros [row Hrow] Hid deleted deleted' answer.
  assert (deleted = delete (params_id req) table) as ->.
  { subst deleted. unfold StudentController.deleteStudent.
    by rewrite (findByPk_Some _ _ _ _ Hrow). }
  assert (deleted' = delete (params_id req) table) as ->.
  { subst deleted'. unfold TeacherController.deleteTeacher.
    by rewrite (findByPk_Some _ _ _ _ Hrow). }
  unfold StudentController.getStudentById, StudentController.updateStudent,
    StudentController.deleteStudent, TeacherController.getTeacherById,
    TeacherController.updateTeacher, TeacherController.deleteTeacher.
  rewrite Hid.
  rewrite !(proj2 (findByPk_None _ _ _)) by apply lookup_delete_eq.
  repeat split; try done.
  - unfold count. rewrite map_size_delete_Some by done.
    assert (size table ≠ 0%nat)
      by (intros ->%map_size_empty_inv; by rewrite lookup_empty in Hrow).
    lia.
  - unfold count. rewrite map_size_delete_Some by done.
    assert (size table ≠ 0%nat)
      by (intros ->%map_size_empty_inv; by rewrite lookup_empty in Hrow).
    lia.
Qed.

Lemma delete_then_missing_witness :
  TeacherController.deleteTeacher
    (TeacherController.deleteTeacher sampleTable (onId 2)).2 (onId 2)
  = ({| status := 404; json := JMessage "Not found" |},
     (TeacherController.deleteTeacher sampleTable (onId 2)).2).
Proof.
  apply (delete_then_missing sampleTable (onId 2) (onId 2)).
  - eexists. vm_compute. reflexivity.
  - reflexivity.
Defined.

(** ** More on the include trees *)

Lemma student_include_nonempty s :
  s ≠ [] →
  StudentController.include (QString s)
  = Ok [mkInclude db.Course (Some (foldl studentNested [] (tokens s)))].
Proof. destruct s as [|c s]; [done|]. intros _. apply student_include_string. Qed.

Lemma studentNested_teachers relations : ∀ nested,
  Forall (λ i, i = mkInclude db.Teacher None) nested →
  Forall (λ i, i = mkInclude db.Teacher None)
    (foldl studentNested nested relations).
Proof.
  induction relations as [|rel relations IH]; intros nested Hnested; [done|].
  cbn [foldl]. apply IH. unfold studentNested. apply Forall_app. split.
  - by destruct (bool_decide (rel = js "CourseId")).
  - destruct (bool_decide (rel = js "TeacherId")); by repeat constructor.
Qed.

(** The shape of an include list.  Whatever [populate] holds, a Student
    listing includes nothing or exactly one Course node whose nested list
    holds Teacher nodes only, and a Teacher listing includes nothing or
    exactly one Course node with nothing or one Student node nested; no other
    model and no deeper nesting is ever asked for. *)
Theorem include_shape (populate : QueryValue)
    (include : list IncludeOptions) :
  (StudentController.include populate = Ok include →
   include = []
   ∨ ∃ nested,
       include = [mkInclude db.Course (Some nested)]
       ∧ Forall (λ i, i = mkInclude db.Teacher None) nested)
  ∧ (TeacherController.include populate = Ok include →
     include = []
     ∨ include = [mkInclude db.Course (Some [])]
     ∨ include = [mkInclude db.Course (Some [mkInclude db.Student None])]).
Proof.
  split.
  - destruct populate as [|[|c s]|items|]; try by (intros [= <-]; left).
    rewrite student_include_string. intros [= <-]. right.
    eexists. split; [done|]. by apply studentNested_teachers.
  - destruct populate as [|s|items|]; try by (intros [= <-]; left).
    rewrite teacher_include_string. intros [= <-]. unfold teacherTree.
    destruct (includes (tokens s) (js "StudentId")); [by right; right|].
    destruct (includes (tokens s) (js "CourseId")); [by right; left|by left].
Qed.

Lemma include_shape_witness :
  [mkInclude db.Course (Some [mkInclude db.Teacher None])] = []
  ∨ ∃ nested,
      [mkInclude db.Course (Some [mkInclude db.Teacher None])]
      = [mkInclude db.Course (Some nested)]
      ∧ Forall (λ i, i = mkInclude db.Teacher None) nested.
Proof.
  apply (proj1 (include_shape (QString (js "CourseId, TeacherId")) _)).
  reflexivity.
Defined.

Lemma split_app s1 s2 : split (s1 ++ comma :: s2) = split s1 ++ split s2.
Proof.
  induction s1 as [|c r IH]; cbn [app split].
  - by rewrite N.eqb_refl.
  - rewrite IH. destruct (c =? comma)%N; [done|].
    pose proof (split_nonempty r). by destruct (split r).
Qed.

(** A [CourseId] token wipes what came before it.  On a Student listing
    everything in [populate] ahead of a [CourseId] token is without effect:
    Teacher nodes asked for earlier are dropped, and the tree is the one the
    rest of the string builds. *)
Theorem student_courseId_resets (before after : jsstring) :
  StudentController.include
    (QString (before ++ js ",CourseId," ++ after))
  = StudentController.include (QString (js "CourseId," ++ after)).
Proof.
  assert (∀ s, tokens (js "CourseId," ++ s) = js "CourseId" :: tokens s)
    as Hhead.
  { intros s. unfold tokens.
    change (js "CourseId," ++ s) with (js "CourseId" ++ comma :: s).
    by rewrite split_app. }
  assert (tokens (before ++ js ",CourseId," ++ after)
          = tokens before ++ js "CourseId" :: tokens after) as Htokens.
  { change (js ",CourseId," ++ after)
      with (comma :: (js "CourseId," ++ after)).
    unfold tokens in *. by rewrite split_app, fmap_app, Hhead. }
  rewrite !student_include_nonempty.
  - rewrite Htokens, Hhead, foldl_app. cbn [foldl].
    do 4 f_equal.
  - done.
  - by destruct before.
Qed.

(** The relations of a [populate] string: there is always at least one,
    none contains a comma, none has white space left at either end, and
    joining the untrimmed pieces with commas gives the string back. *)
Theorem populate_relations (s : jsstring) :
  ∃ relations,
    splitTrim (QString s) = Ok relations
    ∧ relations ≠ []
    ∧ (∀ rel, rel ∈ relations →
         (comma ∉ rel) ∧ trimStart rel = rel ∧ trimEnd rel = rel)
    ∧ join (split s) = s.
Proof.
  exists (trim <$> split s). split; [done|]. split; [|split].
  - pose proof (split_nonempty s). by destruct (split s).
  - intros rel (piece & -> & Hpiece)%list_elem_of_fmap.
    split; [|apply trim_trimmed].
    intros Hcomma. apply (split_no_comma _ _ Hpiece).
    unfold trim, trimEnd in Hcomma.
    rewrite elem_of_reverse in Hcomma.
    assert (∀ l : jsstring, comma ∈ trimStart l → comma ∈ l) as Hsub.
    { induction l as [|c r IH]; [done|]. cbn [trimStart].
      destruct (isWhiteSpace c); [|done].
      intros ?%IH. by apply list_elem_of_further. }
    apply Hsub in Hcomma. rewrite elem_of_reverse in Hcomma.
    by apply Hsub.
  - apply join_split.
Qed.

(** ** Registration and login *)

Lemma findOne_app_new users user where_email :
  AuthController.findOne users where_email = None →
  AuthController.email user = where_email →
  AuthController.findOne (users ++ [user]) where_email = Some user.
Proof.
  intros Hnone Hemail. unfold AuthController.findOne in *.
  induction users as [|u users IH]; cbn in *.
  - by rewrite Hemail, String.eqb_refl.
  - destruct (String.eqb (AuthController.email u) where_email); [done|].
    by apply IH.
Qed.

(** What a registration does.  The password is hashed with cost 10 and it
    is the hash that is stored; when the database takes the new user,
    [register] answers 201 with the key of the new user, and the users are
    the old ones followed by the new one.  When hashing throws, or the
    database rejects the insert, it answers 500 with the message and the
    users are as before. *)
Theorem register_outcomes
    (bcrypt_hash : string → Z → Result string)
    (users : list AuthController.User)
    (req : AuthController.Registration) :
  (∀ id hashed,
     bcrypt_hash (AuthController.reg_password req) 10 = Ok hashed →
     AuthController.register bcrypt_hash (AuthController.UserAssigned id)
       users req
     = ({| AuthController.reg_status := 201;
           AuthController.reg_json :=
             AuthController.JRegistered "User registered" id |},
        users ++ [ {| AuthController.id := id;
                      AuthController.name := AuthController.reg_name req;
                      AuthController.email := AuthController.reg_email req;
                      AuthController.password := hashed |} ]))
  ∧ (∀ decision message,
       bcrypt_hash (AuthController.reg_password req) 10 = Throw message →
       AuthController.register bcrypt_hash decision users req
       = ({| AuthController.reg_status := 500;
             AuthController.reg_json :=
               AuthController.JRegisterError message |}, users))
  ∧ (∀ hashed message,
       bcrypt_hash (AuthController.reg_password req) 10 = Ok hashed →
       AuthController.register bcrypt_hash
         (AuthController.UserRejected message) users req
       = ({| AuthController.reg_status := 500;
             AuthController.reg_json :=
               AuthController.JRegisterError message |}, users)).
Proof.
  unfold AuthController.register.
  split; [|split].
  - intros id hashed ->. reflexivity.
  - intros decision message ->. reflexivity.
  - intros hashed message ->. reflexivity.
Qed.

Lemma register_outcomes_witness :
  (AuthController.register plainHash (AuthController.UserAssigned 8)
     sampleUsers
     {| AuthController.reg_name := "Grace";
        AuthController.reg_email := "grace@school.test";
        AuthController.reg_password := "pw" |}).1
  = {| AuthController.reg_status := 201;
       AuthController.reg_json :=
         AuthController.JRegistered "User registered" 8 |}.
Proof.
  rewrite (proj1 (register_outcomes plainHash sampleUsers
                    {| AuthController.reg_name := "Grace";
                       AuthController.reg_email := "grace@school.test";
                       AuthController.reg_password := "pw" |}) 8 "pw").
  - reflexivity.
  - reflexivity.
Defined.

(** Register, then log in.  When the address is new, the database takes
    the user, the comparison accepts a password against its own hash and
    signing succeeds, a login with the registered address and password
    answers 200 with the token signed for the new user's key and address;
    and with a password the comparison refuses against that hash, the login
    answers 401. *)
Theorem register_then_login
    (bcrypt_hash : string → Z → Result string)
    (bcrypt_compare : string → string → Result bool)
    (jwt_sign : AuthController.Payload → option string →
                AuthController.SignOptions → Result string)
    (env : AuthController.Env) (users : list AuthController.User)
    (req : AuthController.Registration) (id : Z) (hashed : string) :
  AuthController.findOne users (AuthController.reg_email req) = None →
  bcrypt_hash (AuthController.reg_password req) 10 = Ok hashed →
  let registered :=
    (AuthController.register bcrypt_hash (AuthController.UserAssigned id)
       users req).2 in
  (∀ token,
     bcrypt_compare (AuthController.reg_password req) hashed = Ok true →
     jwt_sign
       {| AuthController.userId := id;
          AuthController.payload_email := AuthController.reg_email req |}
       (AuthController.JWT_SECRET env)
       {| AuthController.expiresIn :=
            orDefaultString (AuthController.JWT_EXPIRES_IN env) "1h" |}
     = Ok token →
     AuthController.login bcrypt_compare jwt_sign env registered
       {| AuthController.cred_email := AuthController.reg_email req;
          AuthController.cred_password := AuthController.reg_password req |}
     = {| status := 200; json := JToken token |})
  ∧ (∀ guess,
       bcrypt_compare guess hashed = Ok false →
       AuthController.login bcrypt_compare jwt_sign env registered
         {| AuthController.cred_email := AuthController.reg_email req;
            AuthController.cred_password := guess |}
       = {| status := 401; json := JError "Invalid email or password" |}).
Proof.
  intros Hnew Hhash registered.
  assert (registered
          = users ++ [ {| AuthController.id := id;
                          AuthController.name := AuthController.reg_name req;
                          AuthController.email := AuthController.reg_email req;
                          AuthController.password := hashed |} ]) as ->.
  { subst registered. unfold AuthController.register. by rewrite Hhash. }
  set (user := {| AuthController.id := id;
                  AuthController.name := AuthController.reg_name req;
                  AuthController.email := AuthController.reg_email req;
                  AuthController.password := hashed |}).
  split.
  - intros token Hcompare Hsign. unfold AuthController.login.
    cbn [AuthController.cred_email AuthController.cred_password].
    rewrite (findOne_app_new users user _ Hnew eq_refl).
    subst user.
    cbn [AuthController.password AuthController.id AuthController.email].
    rewrite Hcompare. cbn. by rewrite Hsign.
  - intros guess Hcompare. unfold AuthController.login.
    cbn [AuthController.cred_email AuthController.cred_password].
    rewrite (findOne_app_new users user _ Hnew eq_refl).
    subst user. cbn [AuthController.password]. by rewrite Hcompare.
Qed.

Lemma register_then_login_witness :
  AuthController.login plainCompare tagSign sampleEnv
    (AuthController.register plainHash (AuthController.UserAssigned 8)
       sampleUsers
       {| AuthController.reg_name := "Grace";
          AuthController.reg_email := "grace@school.test";
          AuthController.reg_password := "pw" |}).2
    {| AuthController.cred_email := "grace@school.test";
       AuthController.cred_password := "pw" |}
  = {| status := 200; json := JToken "grace@school.test/1h/k" |}.
Proof.
  apply (proj1 (register_then_login plainHash plainCompare tagSign sampleEnv
                  sampleUsers
                  {| AuthController.reg_name := "Grace";
                     AuthController.reg_email := "grace@school.test";
                     AuthController.reg_password := "pw" |} 8 "pw"
                  eq_refl eq_refl)).
  - reflexivity.
  - reflexivity.
Defined.

(** A token is only ever issued for the address in the request.  When
    [login] answers 200, the token is what [jwt.sign] returned for a stored
    user whose address is the one sent, the first such user, and whose stored
    hash the comparison accepted for the password sent. *)
Theorem login_token_for_requested_address
    (bcrypt_compare : string → string → Result bool)
    (jwt_sign : AuthController.Payload → option string →
                AuthController.SignOptions → Result string)
    (env : AuthController.Env) (users : list AuthController.User)
    (req : AuthController.Credentials) (token : string) :
  AuthController.login bcrypt_compare jwt_sign env users req
  = {| status := 200; json := JToken token |} →
  ∃ user,
    user ∈ users
    ∧ AuthController.email user = AuthController.cred_email req
    ∧ bcrypt_compare (AuthController.cred_password req)
        (AuthController.password user) = Ok true
    ∧ jwt_sign
        {| AuthController.userId := AuthController.id user;
           AuthController.payload_email := AuthController.cred_email req |}
        (AuthController.JWT_SECRET env)
        {| AuthController.expiresIn :=
             orDefaultString (AuthController.JWT_EXPIRES_IN env) "1h" |}
      = Ok token.
Proof.
  unfold AuthController.login.
  destruct (AuthController.findOne users (AuthController.cred_email req))
    as [user|] eqn:Hfind; [|intros [=]].
  apply find_some in Hfind as [Hin%list_elem_of_In Hemail%String.eqb_eq].
  cbn. destruct (bcrypt_compare _ _) as [[]|m] eqn:Hcompare; cbn;
    [|intros [=]..].
  destruct (jwt_sign _ _ _) as [token'|m] eqn:Hsign; cbn; [|intros [=]].
  intros [= ->]. exists user. rewrite <- Hemail. by repeat split.
Qed.

Lemma login_token_for_requested_address_witness :
  ∃ user,
    user ∈ sampleUsers
    ∧ AuthController.email user = "ada@school.test"
    ∧ plainCompare "s3cret" (AuthController.password user) = Ok true.
Proof.
  destruct (login_token_for_requested_address plainCompare tagSign sampleEnv
              sampleUsers
              {| AuthController.cred_email := "ada@school.test";
                 AuthController.cred_password := "s3cret" |}
              "ada@school.test/1h/k" eq_refl)
    as (user & Hin & Hemail & Hcompare & _).
  exists user. split; [exact Hin|]. split; [exact Hemail|exact Hcompare].
Defined.

(** ** Ascending and descending *)

Lemma listing_rows d table id row :
  (id, row) ∈ listing d table → table !! id = Some row.
Proof.
  rewrite listing_Permutation. apply elem_of_map_to_list.
Qed.

Lemma listing_desc_reverse table :
  distinctTimes table → listing DESC table = reverse (listing ASC table).
Proof.
  intros Hdistinct.
  apply (Sorted_unique_strong (precedes DESC)).
  - intros [i row] [j row'] Hi%listing_rows Hj.
    rewrite elem_of_reverse in Hj. apply listing_rows in Hj.
    cbn. intros H1 H2.
    assert (i = j) as -> by (apply (Hdistinct i j row row'); [done..|lia]).
    congruence.
  - unfold listing, orderBy. cbn. apply Sorted_merge_sort, _.
  - apply (Sorted_reverse (precedes ASC)).
    unfold listing, orderBy. cbn. apply Sorted_merge_sort, _.
  - by rewrite reverse_Permutation, !listing_Permutation.
Qed.

(** [sort=desc] is [sort=asc] read backwards.  When no two rows share a
    creation time and the first page is large enough for the whole table,
    the rows of a listing with [sort=desc] are the rows of the same listing
    with any other [sort], or none, in the reverse order. *)
Theorem desc_reverses_asc (table : Table) (req : Request)
    (other : QueryValue) :
  populate (query req) = QUndefined ∨ (∃ s, populate (query req) = QString s) →
  other ≠ QString (js "desc") →
  distinctTimes table →
  (count table ≤ StudentController.limit (query req) →
   StudentController.page (query req) = 1 →
   dataOf (StudentController.getAllStudents table
             (onSort req (QString (js "desc"))))
   = reverse (dataOf (StudentController.getAllStudents table
                        (onSort req other))))
  ∧ (count table ≤ TeacherController.limit (query req) →
     TeacherController.page (query req) = 1 →
     dataOf (TeacherController.getAllTeachers table
               (onSort req (QString (js "desc"))))
     = reverse (dataOf (TeacherController.getAllTeachers table
                          (onSort req other)))).
Proof.
  intros Hpopulate Hother Hdistinct.
  assert (strictEquals other (js "desc") = false) as Hasc.
  { destruct (strictEquals other (js "desc")) eqn:H; [|done].
    by apply strictEquals_true in H. }
  assert (∀ (L : Z) d, count table ≤ L →
            take (Z.to_nat L) (drop (Z.to_nat ((1 - 1) * L)) (listing d table))
            = listing d table) as Hwhole.
  { intros L d HL. cbn [Z.sub Z.add Z.opp Z.pos_sub Z.mul Z.to_nat drop].
    apply take_ge. pose proof (listing_length d table). lia. }
  split; intros Hlimit Hpage.
  - rewrite !student_data by done.
    unfold StudentController.limit, StudentController.page,
      StudentController.sortOrder in *.
    cbn [onSort query limit page sort]. rewrite Hpage, Hasc.
    cbn [strictEquals]. rewrite bool_decide_eq_true_2 by done.
    rewrite !Hwhole by done. by apply listing_desc_reverse.
  - rewrite !teacher_data by done.
    unfold TeacherController.limit, TeacherController.page,
      TeacherController.sortOrder in *.
    cbn [onSort query limit page sort]. rewrite Hpage, Hasc.
    cbn [strictEquals]. rewrite bool_decide_eq_true_2 by done.
    rewrite !Hwhole by done. by apply listing_desc_reverse.
Qed.

Lemma desc_reverses_asc_witness :
  dataOf (TeacherController.getAllTeachers sampleTable
            (onSort (onId 0) (QString (js "desc"))))
  = reverse (dataOf (TeacherController.getAllTeachers sampleTable
                       (onSort (onId 0) (QString (js "asc"))))).
Proof.
  apply (proj2 (desc_reverses_asc sampleTable (onId 0) (QString (js "asc"))
                  (or_introl eq_refl) ltac:(vm_compute; discriminate)
                  sampleTable_distinctTimes)).
  - vm_compute. discriminate.
  - reflexivity.
Defined.
